(** * Scheduling loops of the off-chain node: [usecase/spawn_actor_processes.go]

    A shallow embedding of [Spawn], [runWorkerProcess] and [runReputerProcess].
    The chain client, the payload builders and the anticipated-window
    primitives are collaborators of the loops; they are gathered in the
    record [Suite] and every theorem is stated for an arbitrary suite.
    Each call to a collaborator is recorded, with its answer, in a trace of
    events, so that statements such as "no commit attempt is made" are
    statements about the trace. *)

From Stdlib Require Import ZArith List Bool Lia.
From stdpp Require Import base strings list gmap.

Local Open Scope string_scope.
Local Open Scope list_scope.
Local Open Scope Z_scope.

(** ** Data model *)

(** [emissions.TopicId] is a [uint64]; no arithmetic is done on it. *)
Definition TopicId := N.
(** [emissions.BlockHeight] is an [int64]. *)
Definition BlockHeight := Z.

(** A Go [error] value; [nil] is [None]. *)
Definition error := option string.

Definition isErr (e : error) : bool :=
  match e with Some _ => true | None => false end.

(** The fields of [emissions.Topic] the loops read. *)
Record Topic := mkTopic {
  Id : TopicId;
  EpochLength : BlockHeight
}.

(** [emissions.Nonce]. The loops hold it through a pointer, modelled as
    [option Nonce] with [None] for [nil]. *)
Record Nonce := mkNonce { NonceBlockHeight : BlockHeight }.

(** [lib.WorkerConfig] and [lib.ReputerConfig]: the topic id and a label
    standing for the remaining, uninterpreted fields. *)
Record WorkerConfig := mkWorker {
  WorkerTopicId : TopicId;
  WorkerLabel : string
}.

Record ReputerConfig := mkReputer {
  ReputerTopicId : TopicId;
  ReputerLabel : string
}.

Inductive Level := LDebug | LInfo | LError.

(** One event per collaborator call, log line or wait, in program order. *)
Inductive Event :=
| EvLog (lvl : Level) (msg : string)
| EvPrintln (h : BlockHeight)
| EvGetTopicById (t : TopicId) (res : Topic * error)
| EvRegisterWorkerIdempotently (w : WorkerConfig) (res : bool)
| EvRegisterAndStakeReputerIdempotently (r : ReputerConfig) (res : bool)
| EvGetCurrentChainBlockHeight (res : BlockHeight * error)
| EvGetLatestOpenWorkerNonceByTopicId (t : TopicId) (res : option Nonce * error)
| EvCalcWorkerSoonestAnticipatedWindow (topic : Topic) (currentBlock : BlockHeight)
| EvCalcReputerSoonestAnticipatedWindow (topic : Topic) (openNonce : BlockHeight)
| EvBuildCommitWorkerPayload (w : WorkerConfig) (n : Nonce) (res : bool * error)
| EvBuildCommitReputerPayload (r : ReputerConfig) (h : BlockHeight) (res : bool * error)
| EvWaitForNextAnticipatedWindowToStart (currentBlock epochLength : BlockHeight)
| EvWaitWithinAnticipatedWindow
| EvWaitForNextReputerAnticipatedWindowToStart
    (topic : Topic) (openNonce currentBlock : BlockHeight).

(** ** Collaborators

    [Chain] is the state of everything outside the loop (the chain, the
    clock). [AnticipatedWindow] and its methods live in another file of the
    package; they are taken as they are called here: the two membership
    tests and [CalcReputerSoonestAnticipatedWindow] (which gets no suite)
    as functions of their arguments, the latter returning a valid pointer;
    [CalcWorkerSoonestAnticipatedWindow], which gets the suite, and the
    waits as acting on the outside state and leaving the window alone. *)
Record Suite := mkSuite {
  Chain : Type;
  AnticipatedWindow : Type;
  (** [AnticipatedWindow{}] *)
  zeroWindow : AnticipatedWindow;
  GetTopicById : TopicId -> Chain -> (Topic * error) * Chain;
  RegisterWorkerIdempotently : WorkerConfig -> Chain -> bool * Chain;
  RegisterAndStakeReputerIdempotently : ReputerConfig -> Chain -> bool * Chain;
  GetCurrentChainBlockHeight : Chain -> (BlockHeight * error) * Chain;
  GetLatestOpenWorkerNonceByTopicId :
    TopicId -> Chain -> (option Nonce * error) * Chain;
  BuildCommitWorkerPayload :
    WorkerConfig -> Nonce -> Chain -> (bool * error) * Chain;
  BuildCommitReputerPayload :
    ReputerConfig -> BlockHeight -> Chain -> (bool * error) * Chain;
  CalcWorkerSoonestAnticipatedWindow :
    AnticipatedWindow -> Topic -> BlockHeight -> Chain -> AnticipatedWindow * Chain;
  CalcReputerSoonestAnticipatedWindow :
    AnticipatedWindow -> Topic -> BlockHeight -> AnticipatedWindow;
  BlockIsWithinWindow : AnticipatedWindow -> BlockHeight -> bool;
  BlockIsWithinReputerWindow : AnticipatedWindow -> BlockHeight -> bool;
  WaitForNextAnticipatedWindowToStart :
    AnticipatedWindow -> BlockHeight -> BlockHeight -> Chain -> Chain;
  WaitForNextReputerAnticipatedWindowToStart :
    AnticipatedWindow -> Topic -> BlockHeight -> BlockHeight -> Chain -> Chain;
  WaitWithinAnticipatedWindow : Chain -> Chain
}.

(** ** The monad of a loop: outside state, trace, and panics *)

Record World (C : Type) := mkWorld {
  chain : C;
  trace : list Event
}.
Arguments mkWorld {C} _ _.
Arguments chain {C} _.
Arguments trace {C} _.

Inductive Res (A : Type) :=
| Ok (a : A)
| Panic (msg : string).
Arguments Ok {A} _.
Arguments Panic {A} _.

Definition M (C A : Type) := World C -> Res A * World C.

Definition ret {C A} (a : A) : M C A := fun w => (Ok a, w).

Definition bind {C A B} (k : A -> M C B) (m : M C A) : M C B :=
  fun w => match m w with
           | (Ok a, w') => k a w'
           | (Panic msg, w') => (Panic msg, w')
           end.

#[global] Instance M_ret {C} : MRet (M C) := @ret C.
#[global] Instance M_bind {C} : MBind (M C) := @bind C.

Definition emit {C} (e : Event) : M C unit :=
  fun w => (Ok tt, mkWorld (chain w) (trace w ++ [e])).

Definition log {C} (lvl : Level) (msg : string) : M C unit := emit (EvLog lvl msg).

(** A call that returns a value: run it on the chain and record the answer. *)
Definition call {C A} (f : C -> A * C) (ev : A -> Event) : M C A :=
  fun w => let '(a, c') := f (chain w) in
           (Ok a, mkWorld c' (trace w ++ [ev a])).

(** A wait: it only lets the outside world move on. *)
Definition wait {C} (f : C -> C) (ev : Event) : M C unit :=
  fun w => (Ok tt, mkWorld (f (chain w)) (trace w ++ [ev])).

(** Reading a field through a pointer; a [nil] pointer panics. *)
Definition deref {C} (p : option Nonce) : M C Nonce :=
  match p with
  | Some n => ret n
  | None => fun w => (Panic "invalid memory address or nil pointer dereference", w)
  end.

Definition when {C} (b : bool) (m : M C unit) : M C unit :=
  if b then m else ret tt.

(** What one pass through a [for { ... }] body decides. *)
Inductive Ctl (St : Type) :=
| Continue (st : St)
| Return.
Arguments Continue {St} _.
Arguments Return {St}.

(** How an observation of a loop ends: it returned, or it is still running
    with the given local state after the observed number of iterations. *)
Inductive LoopExit (St : Type) :=
| Returned
| Running (st : St).
Arguments Returned {St}.
Arguments Running {St} _.

Fixpoint forever {C St} (body : St -> M C (Ctl St)) (fuel : nat) (st : St)
  : M C (LoopExit St) :=
  match fuel with
  | O => ret (Running st)
  | S n => c ← body st;
           match c with
           | Continue st' => forever body n st'
           | Return => ret Returned
           end
  end.

(** ** The two loops *)

Section Loops.

Context (S : Suite).

Local Abbreviation C := (Chain S).
Local Abbreviation Window := (AnticipatedWindow S).

(** *** Collaborator calls, as the loops make them *)

Definition getTopicById (t : TopicId) : M C (Topic * error) :=
  call (GetTopicById S t) (EvGetTopicById t).

Definition registerWorkerIdempotently (w : WorkerConfig) : M C bool :=
  call (RegisterWorkerIdempotently S w) (EvRegisterWorkerIdempotently w).

Definition registerAndStakeReputerIdempotently (r : ReputerConfig) : M C bool :=
  call (RegisterAndStakeReputerIdempotently S r)
       (EvRegisterAndStakeReputerIdempotently r).

Definition getCurrentChainBlockHeight : M C (BlockHeight * error) :=
  call (GetCurrentChainBlockHeight S) EvGetCurrentChainBlockHeight.

Definition getLatestOpenWorkerNonceByTopicId (t : TopicId)
  : M C (option Nonce * error) :=
  call (GetLatestOpenWorkerNonceByTopicId S t)
       (EvGetLatestOpenWorkerNonceByTopicId t).

Definition buildCommitWorkerPayload (w : WorkerConfig) (n : Nonce)
  : M C (bool * error) :=
  call (BuildCommitWorkerPayload S w n) (EvBuildCommitWorkerPayload w n).

Definition buildCommitReputerPayload (r : ReputerConfig) (h : BlockHeight)
  : M C (bool * error) :=
  call (BuildCommitReputerPayload S r h) (EvBuildCommitReputerPayload r h).

Definition calcWorkerSoonestAnticipatedWindow
    (win : Window) (topic : Topic) (currentBlock : BlockHeight) : M C Window :=
  call (CalcWorkerSoonestAnticipatedWindow S win topic currentBlock)
       (fun _ => EvCalcWorkerSoonestAnticipatedWindow topic currentBlock).

Definition calcReputerSoonestAnticipatedWindow
    (win : Window) (topic : Topic) (openNonce : BlockHeight) : M C Window :=
  emit (EvCalcReputerSoonestAnticipatedWindow topic openNonce);;
  ret (CalcReputerSoonestAnticipatedWindow S win topic openNonce).

Definition waitForNextAnticipatedWindowToStart
    (win : Window) (currentBlock epochLength : BlockHeight) : M C unit :=
  wait (WaitForNextAnticipatedWindowToStart S win currentBlock epochLength)
       (EvWaitForNextAnticipatedWindowToStart currentBlock epochLength).

Definition waitForNextReputerAnticipatedWindowToStart
    (win : Window) (topic : Topic) (openNonce currentBlock : BlockHeight)
  : M C unit :=
  wait (WaitForNextReputerAnticipatedWindowToStart S win topic openNonce currentBlock)
       (EvWaitForNextReputerAnticipatedWindowToStart topic openNonce currentBlock).

Definition waitWithinAnticipatedWindow : M C unit :=
  wait (WaitWithinAnticipatedWindow S) EvWaitWithinAnticipatedWindow.

(** *** [runWorkerProcess] *)

(** The local variables of the worker loop that live across iterations. *)
Record WorkerLoop := mkWorkerLoop {
  mustRecalcWindow : bool;
  workerWindow : Window
}.

(** Lines 65-66. *)
Definition workerInit : WorkerLoop :=
  {| mustRecalcWindow := true; workerWindow := zeroWindow S |}.

(** Lines 74-79: recompute the window when it is marked stale. *)
Definition workerRecalc (topic : Topic) (currentBlock : BlockHeight)
    (st : WorkerLoop) : M C WorkerLoop :=
  if mustRecalcWindow st then
    win ← calcWorkerSoonestAnticipatedWindow (workerWindow st) topic currentBlock;
    log LDebug "Worker anticipated window for topic open nonce";;
    ret {| mustRecalcWindow := false; workerWindow := win |}
  else ret st.

(** Lines 81-107: what the loop does once the window is known. *)
Definition workerAct (worker : WorkerConfig) (topic : Topic)
    (currentBlock : BlockHeight) (st : WorkerLoop) : M C (Ctl WorkerLoop) :=
  if BlockIsWithinWindow S (workerWindow st) currentBlock then
    '(latestOpenWorkerNonce, err) ←
      getLatestOpenWorkerNonceByTopicId (WorkerTopicId worker);
    nonce ← deref latestOpenWorkerNonce;
    let attemptCommit := negb ((NonceBlockHeight nonce =? 0) || isErr err) in
    when (negb attemptCommit)
         (log LError "Error getting latest open worker nonce on topic");;
    log LInfo "Got latest open worker nonce";;
    if attemptCommit then
      '(success, err) ← buildCommitWorkerPayload worker nonce;
      when (isErr err)
           (log LError "Error building and committing worker payload for topic");;
      if (success : bool) then
        waitForNextAnticipatedWindowToStart
          (workerWindow st) currentBlock (EpochLength topic);;
        ret (Continue {| mustRecalcWindow := true;
                         workerWindow := workerWindow st |})
      else
        waitWithinAnticipatedWindow;;
        ret (Continue st)
    else
      waitWithinAnticipatedWindow;;
      ret (Continue st)
  else
    log LDebug "Block is not within window";;
    waitForNextAnticipatedWindowToStart
      (workerWindow st) currentBlock (EpochLength topic);;
    ret (Continue st).

(** Lines 67-108: one pass through the body of the worker's [for]. *)
Definition workerIteration (worker : WorkerConfig) (topic : Topic)
    (st : WorkerLoop) : M C (Ctl WorkerLoop) :=
  '(currentBlock, err) ← getCurrentChainBlockHeight;
  if isErr err then
    log LError "Error getting chain block height for worker job on topic";;
    ret Return
  else
    st1 ← workerRecalc topic currentBlock st;
    workerAct worker topic currentBlock st1.

(** Lines 51-63: what happens before the loop; [None] when the function
    returns there, [Some topic] when the loop is entered. *)
Definition workerStart (worker : WorkerConfig) : M C (option Topic) :=
  log LInfo "Running worker process for topic";;
  '(topic, err) ← getTopicById (WorkerTopicId worker);
  if isErr err then
    log LError "Failed to get topic";;
    ret None
  else
    registered ← registerWorkerIdempotently worker;
    if negb registered then
      log LError "Failed to register worker for topic";;
      ret None
    else ret (Some topic).

(** Lines 50-109. [fuel] bounds the number of iterations observed. *)
Definition runWorkerProcess (fuel : nat) (worker : WorkerConfig)
  : M C (LoopExit WorkerLoop) :=
  started ← workerStart worker;
  match started with
  | None => ret Returned
  | Some topic => forever (workerIteration worker topic) fuel workerInit
  end.

(** *** [runReputerProcess] *)

(** The local variables of the reputer loop that live across iterations. *)
Record ReputerLoop := mkReputerLoop {
  latestOpenReputerNonce : option Nonce;
  mustRecalcOpenNonceWindow : bool;
  mustGetOpenNonce : bool;
  mustRecalcReputerWindow : bool;
  reputerWindow : Window
}.

(** Lines 126-130; the pointer starts [nil]. *)
Definition reputerInit : ReputerLoop :=
  {| latestOpenReputerNonce := None;
     mustRecalcOpenNonceWindow := true;
     mustGetOpenNonce := true;
     mustRecalcReputerWindow := true;
     reputerWindow := zeroWindow S |}.

(** Lines 139-143. *)
Definition reputerRecalcOpenNonceWindow (topic : Topic)
    (currentBlock : BlockHeight) (st : ReputerLoop) : M C ReputerLoop :=
  if mustRecalcOpenNonceWindow st then
    win ← calcWorkerSoonestAnticipatedWindow (reputerWindow st) topic currentBlock;
    log LDebug "Reputer anticipated window for open nonce for topic";;
    ret {| latestOpenReputerNonce := latestOpenReputerNonce st;
           mustRecalcOpenNonceWindow := false;
           mustGetOpenNonce := mustGetOpenNonce st;
           mustRecalcReputerWindow := mustRecalcReputerWindow st;
           reputerWindow := win |}
  else ret st.

(** Lines 145-154. The boolean of the result is [true] when the iteration
    ends here by the [continue] of line 151, [false] when it goes on. *)
Definition reputerGetOpenNonce (reputer : ReputerConfig)
    (currentBlock : BlockHeight) (st : ReputerLoop)
  : M C (ReputerLoop * bool) :=
  if mustGetOpenNonce st && BlockIsWithinWindow S (reputerWindow st) currentBlock then
    '(ptr, err) ← getLatestOpenWorkerNonceByTopicId (ReputerTopicId reputer);
    nonce ← deref ptr;
    emit (EvPrintln (NonceBlockHeight nonce));;
    if (NonceBlockHeight nonce =? 0) || isErr err then
      log LError "Error getting latest open reputer nonce on topic";;
      ret ({| latestOpenReputerNonce := ptr;
              mustRecalcOpenNonceWindow := mustRecalcOpenNonceWindow st;
              mustGetOpenNonce := true;
              mustRecalcReputerWindow := mustRecalcReputerWindow st;
              reputerWindow := reputerWindow st |}, true)
    else
      ret ({| latestOpenReputerNonce := ptr;
              mustRecalcOpenNonceWindow := mustRecalcOpenNonceWindow st;
              mustGetOpenNonce := false;
              mustRecalcReputerWindow := mustRecalcReputerWindow st;
              reputerWindow := reputerWindow st |}, false)
  else ret (st, false).

(** Lines 156-160. *)
Definition reputerRecalcReputerWindow (topic : Topic) (st : ReputerLoop)
  : M C ReputerLoop :=
  if mustRecalcReputerWindow st then
    nonce ← deref (latestOpenReputerNonce st);
    win ← calcReputerSoonestAnticipatedWindow
            (reputerWindow st) topic (NonceBlockHeight nonce);
    log LDebug "Reputer anticipated window for submission for topic";;
    ret {| latestOpenReputerNonce := latestOpenReputerNonce st;
           mustRecalcOpenNonceWindow := mustRecalcOpenNonceWindow st;
           mustGetOpenNonce := mustGetOpenNonce st;
           mustRecalcReputerWindow := false;
           reputerWindow := win |}
  else ret st.

(** Lines 162-179. *)
Definition reputerAct (reputer : ReputerConfig) (topic : Topic)
    (currentBlock : BlockHeight) (st : ReputerLoop) : M C (Ctl ReputerLoop) :=
  if BlockIsWithinReputerWindow S (reputerWindow st) currentBlock then
    nonce ← deref (latestOpenReputerNonce st);
    '(success, err) ← buildCommitReputerPayload reputer (NonceBlockHeight nonce);
    when (isErr err)
         (log LError "Error building and committing worker payload for topic");;
    if (success : bool) then
      waitForNextAnticipatedWindowToStart
        (reputerWindow st) currentBlock (EpochLength topic);;
      ret (Continue {| latestOpenReputerNonce := latestOpenReputerNonce st;
                       mustRecalcOpenNonceWindow := true;
                       mustGetOpenNonce := true;
                       mustRecalcReputerWindow := true;
                       reputerWindow := reputerWindow st |})
    else
      waitWithinAnticipatedWindow;;
      ret (Continue st)
  else
    nonce ← deref (latestOpenReputerNonce st);
    waitForNextReputerAnticipatedWindowToStart
      (reputerWindow st) topic (NonceBlockHeight nonce) currentBlock;;
    ret (Continue st).

(** Lines 131-180: one pass through the body of the reputer's [for]. *)
Definition reputerIteration (reputer : ReputerConfig) (topic : Topic)
    (st : ReputerLoop) : M C (Ctl ReputerLoop) :=
  '(currentBlock, err) ← getCurrentChainBlockHeight;
  if isErr err then
    log LError "Error getting chain block height for reputer job on topic";;
    ret Return
  else
    st1 ← reputerRecalcOpenNonceWindow topic currentBlock st;
    '(st2, skip) ← reputerGetOpenNonce reputer currentBlock st1;
    if (skip : bool) then ret (Continue st2)
    else
      st3 ← reputerRecalcReputerWindow topic st2;
      reputerAct reputer topic currentBlock st3.

(** Lines 112-124. *)
Definition reputerStart (reputer : ReputerConfig) : M C (option Topic) :=
  log LDebug "Running reputer process for topic";;
  '(topic, err) ← getTopicById (ReputerTopicId reputer);
  if isErr err then
    log LError "Failed to get topic";;
    ret None
  else
    registeredAndStaked ← registerAndStakeReputerIdempotently reputer;
    if negb registeredAndStaked then
      log LError "Failed to register or sufficiently stake reputer for topic";;
      ret None
    else ret (Some topic).

(** Lines 111-181. *)
Definition runReputerProcess (fuel : nat) (reputer : ReputerConfig)
  : M C (LoopExit ReputerLoop) :=
  started ← reputerStart reputer;
  match started with
  | None => ret Returned
  | Some topic => forever (reputerIteration reputer topic) fuel reputerInit
  end.

(** *** The tasks of [Spawn], interleaved

    [Spawn] starts one goroutine per surviving configuration. The loops have
    no variable in common: all they share is the suite. A goroutine is
    modelled by its local state, a scheduler picks which one makes its next
    pass, and an unrecovered panic in any of them ends the whole process. *)

Inductive Proc :=
| WorkerLaunched (worker : WorkerConfig)
| WorkerLooping (worker : WorkerConfig) (topic : Topic) (st : WorkerLoop)
| ReputerLaunched (reputer : ReputerConfig)
| ReputerLooping (reputer : ReputerConfig) (topic : Topic) (st : ReputerLoop)
| Exited.

Definition ctlWorker (worker : WorkerConfig) (topic : Topic)
    (c : Ctl WorkerLoop) : Proc :=
  match c with
  | Continue st => WorkerLooping worker topic st
  | Return => Exited
  end.

Definition ctlReputer (reputer : ReputerConfig) (topic : Topic)
    (c : Ctl ReputerLoop) : Proc :=
  match c with
  | Continue st => ReputerLooping reputer topic st
  | Return => Exited
  end.

Definition procStep (p : Proc) : M C Proc :=
  match p with
  | WorkerLaunched worker =>
      started ← workerStart worker;
      ret (match started with
           | Some topic => WorkerLooping worker topic workerInit
           | None => Exited
           end)
  | WorkerLooping worker topic st =>
      c ← workerIteration worker topic st;
      ret (ctlWorker worker topic c)
  | ReputerLaunched reputer =>
      started ← reputerStart reputer;
      ret (match started with
           | Some topic => ReputerLooping reputer topic reputerInit
           | None => Exited
           end)
  | ReputerLooping reputer topic st =>
      c ← reputerIteration reputer topic st;
      ret (ctlReputer reputer topic c)
  | Exited => ret Exited
  end.

Record System := mkSystem {
  procs : list Proc;
  world : World C
}.

Inductive SysRes :=
| SysOk (s : System)
| SysCrashed (msg : string) (w : World C).

(** Goroutine [i] makes its next pass. *)
Definition sysStep (i : nat) (s : System) : SysRes :=
  match procs s !! i with
  | None => SysOk s
  | Some p =>
      match procStep p (world s) with
      | (Ok p', w') => SysOk {| procs := <[i := p']> (procs s); world := w' |}
      | (Panic msg, w') => SysCrashed msg w'
      end
  end.

Fixpoint sysRun (schedule : list nat) (s : System) : SysRes :=
  match schedule with
  | [] => SysOk s
  | i :: rest =>
      match sysStep i s with
      | SysOk s' => sysRun rest s'
      | SysCrashed msg w => SysCrashed msg w
      end
  end.

End Loops.

Arguments mustRecalcWindow {S} _.
Arguments workerWindow {S} _.
Arguments mkWorkerLoop {S} _ _.
Arguments latestOpenReputerNonce {S} _.
Arguments mustRecalcOpenNonceWindow {S} _.
Arguments mustGetOpenNonce {S} _.
Arguments mustRecalcReputerWindow {S} _.
Arguments reputerWindow {S} _.
Arguments mkReputerLoop {S} _ _ _ _ _.
Arguments WorkerLaunched {S} _.
Arguments WorkerLooping {S} _ _ _.
Arguments ReputerLaunched {S} _.
Arguments ReputerLooping {S} _ _ _.
Arguments Exited {S}.
Arguments procs {S} _.
Arguments world {S} _.
Arguments mkSystem {S} _ _.
Arguments SysOk {S} _.
Arguments SysCrashed {S} _ _.

(** A goroutine that is inside its [for]. *)
Definition isLooping {S : Suite} (p : Proc S) : bool :=
  match p with
  | WorkerLooping _ _ _ | ReputerLooping _ _ _ => true
  | _ => false
  end.

(** The line a loop writes when the height query fails. *)
Definition heightErrorLine {S : Suite} (p : Proc S) : string :=
  match p with
  | ReputerLooping _ _ _ =>
      "Error getting chain block height for reputer job on topic"
  | _ => "Error getting chain block height for worker job on topic"
  end.

(** ** [Spawn] *)

(** [suite.Node]: the configured actors. *)
Record NodeConfig := mkNode {
  Worker : list WorkerConfig;
  Reputer : list ReputerConfig
}.

(** Lines 15-28: the diagnostics written and the workers launched, in order.
    [alreadyStartedWorkerForTopic] is the map of line 15. *)
Fixpoint spawnWorkers (workers : list WorkerConfig)
    (alreadyStartedWorkerForTopic : gmap TopicId bool)
  : list Event * list WorkerConfig :=
  match workers with
  | [] => ([], [])
  | worker :: rest =>
      match alreadyStartedWorkerForTopic !! WorkerTopicId worker with
      | Some _ =>
          let '(logs, launched) := spawnWorkers rest alreadyStartedWorkerForTopic in
          (EvLog LDebug "Worker already started for topicId" :: logs, launched)
      | None =>
          let '(logs, launched) :=
            spawnWorkers rest
              (<[WorkerTopicId worker := true]> alreadyStartedWorkerForTopic) in
          (logs, worker :: launched)
      end
  end.

(** Lines 31-44. *)
Fixpoint spawnReputers (reputers : list ReputerConfig)
    (alreadyStartedReputerForTopic : gmap TopicId bool)
  : list Event * list ReputerConfig :=
  match reputers with
  | [] => ([], [])
  | reputer :: rest =>
      match alreadyStartedReputerForTopic !! ReputerTopicId reputer with
      | Some _ =>
          let '(logs, launched) := spawnReputers rest alreadyStartedReputerForTopic in
          (EvLog LDebug "Reputer already started for topicId" :: logs, launched)
      | None =>
          let '(logs, launched) :=
            spawnReputers rest
              (<[ReputerTopicId reputer := true]> alreadyStartedReputerForTopic) in
          (logs, reputer :: launched)
      end
  end.

(** Lines 11-44: the diagnostics and the goroutines started, before any of
    them has run. Both maps start empty. *)
Definition Spawn (S : Suite) (node : NodeConfig) : list Event * list (Proc S) :=
  let '(wlogs, ws) := spawnWorkers (Worker node) ∅ in
  let '(rlogs, rs) := spawnReputers (Reputer node) ∅ in
  (wlogs ++ rlogs, (WorkerLaunched <$> ws) ++ (ReputerLaunched <$> rs)).

(** Lines 46-47: [wg.Wait] returns once every goroutine has returned. *)
Definition allExited {S : Suite} (ps : list (Proc S)) : bool :=
  forallb (fun p => match p with Exited => true | _ => false end) ps.

(** [Spawn] followed by the goroutines running under [schedule]. *)
Definition SpawnAndRun (S : Suite) (node : NodeConfig) (c : Chain S)
    (schedule : list nat) : SysRes S :=
  let '(logs, ps) := Spawn S node in
  sysRun S schedule {| procs := ps; world := mkWorld c logs |}.

(** ** A simulated chain

    A concrete suite on which the loops can be run: the outside state is the
    chain's block height, which advances by one each time it is queried
    (the end-to-end scenarios of the specification use the same clock). What
    the chain answers at each height is given by a [Sim]. *)

Record SimWindow := mkSimWindow {
  lower : BlockHeight;
  upper : BlockHeight
}.

Record Sim := mkSim {
  simTopic : TopicId -> Topic * error;
  simRegistered : bool;
  simHeightError : BlockHeight -> error;
  simOpenNonce : BlockHeight -> option Nonce * error;
  simCommit : BlockHeight -> bool * error;
  (** number of blocks during which a worker nonce accepts submissions *)
  simSubmissionBlocks : BlockHeight
}.

(** Modelled from the spec: [CalcWorkerSoonestAnticipatedWindow], which is in
    another file of the package. The predicted interval is anchored to the
    current height and the epoch length: here, the first
    [simSubmissionBlocks] blocks of the epoch cycle the current height is
    in, or of the next cycle when those blocks have passed. *)
Definition simCalcWorker (sim : Sim) (win : SimWindow) (topic : Topic)
    (currentBlock : BlockHeight) : SimWindow :=
  let start := EpochLength topic * (currentBlock / EpochLength topic) in
  if currentBlock <=? start + simSubmissionBlocks sim then
    {| lower := start; upper := start + simSubmissionBlocks sim |}
  else
    {| lower := start + EpochLength topic;
       upper := start + EpochLength topic + simSubmissionBlocks sim |}.

(** Modelled from the spec: [CalcReputerSoonestAnticipatedWindow], which is
    in another file of the package. The interval is a fixed offset and
    duration from the height at which the worker nonce opened: here, the
    epoch cycle that follows it. *)
Definition simCalcReputer (win : SimWindow) (topic : Topic)
    (openNonce : BlockHeight) : SimWindow :=
  {| lower := openNonce + EpochLength topic;
     upper := openNonce + 2 * EpochLength topic |}.

(** Modelled from the spec: [BlockIsWithinWindow] and
    [BlockIsWithinReputerWindow], which are in another file of the package:
    true for the blocks within the bounds, false strictly outside. *)
Definition simWithin (win : SimWindow) (block : BlockHeight) : bool :=
  (lower win <=? block) && (block <=? upper win).

(** Modelled from the spec: [WaitForNextAnticipatedWindowToStart], which is
    in another file of the package. It suspends until the start of the next
    window and never returns early: the chain is then at least at the
    window's lower bound, or one epoch after it when that bound has passed. *)
Definition simWaitNext (win : SimWindow) (currentBlock epochLength : BlockHeight)
    (height : BlockHeight) : BlockHeight :=
  Z.max height
    (if currentBlock <? lower win then lower win else lower win + epochLength).

(** Modelled from the spec: [WaitForNextReputerAnticipatedWindowToStart],
    which is in another file of the package; anchored to the nonce's height. *)
Definition simWaitNextReputer (win : SimWindow) (topic : Topic)
    (openNonce currentBlock : BlockHeight) (height : BlockHeight) : BlockHeight :=
  Z.max height (openNonce + EpochLength topic).

Definition simSuite (sim : Sim) : Suite :=
  {| Chain := BlockHeight;
     AnticipatedWindow := SimWindow;
     zeroWindow := {| lower := 0; upper := 0 |};
     GetTopicById := fun t h => (simTopic sim t, h);
     RegisterWorkerIdempotently := fun _ h => (simRegistered sim, h);
     RegisterAndStakeReputerIdempotently := fun _ h => (simRegistered sim, h);
     GetCurrentChainBlockHeight := fun h => ((h, simHeightError sim h), h + 1);
     GetLatestOpenWorkerNonceByTopicId := fun _ h => (simOpenNonce sim h, h);
     BuildCommitWorkerPayload := fun _ _ h => (simCommit sim h, h);
     BuildCommitReputerPayload := fun _ _ h => (simCommit sim h, h);
     CalcWorkerSoonestAnticipatedWindow :=
       fun win topic cur h => (simCalcWorker sim win topic cur, h);
     CalcReputerSoonestAnticipatedWindow := simCalcReputer;
     BlockIsWithinWindow := simWithin;
     BlockIsWithinReputerWindow := simWithin;
     WaitForNextAnticipatedWindowToStart := simWaitNext;
     WaitForNextReputerAnticipatedWindowToStart := simWaitNextReputer;
     WaitWithinAnticipatedWindow := fun h => h |}.

(** Topic 7 with an epoch of 100 blocks, as in the specification's scenarios. *)
Definition topic7 : Topic := {| Id := 7%N; EpochLength := 100 |}.
Definition worker7 : WorkerConfig := {| WorkerTopicId := 7%N; WorkerLabel := "w" |}.
Definition reputer7 : ReputerConfig := {| ReputerTopicId := 7%N; ReputerLabel := "r" |}.

(** A healthy chain: every query succeeds, the nonce opened at the start of
    the running epoch cycle is open, every commit goes through. *)
Definition healthy : Sim :=
  {| simTopic := fun _ => (topic7, None);
     simRegistered := true;
     simHeightError := fun _ => None;
     simOpenNonce := fun h => (Some {| NonceBlockHeight := 100 * (h / 100) |}, None);
     simCommit := fun _ => (true, None);
     simSubmissionBlocks := 10 |}.

(** The chain refuses the registration. *)
Definition unregistered : Sim :=
  {| simTopic := simTopic healthy;
     simRegistered := false;
     simHeightError := simHeightError healthy;
     simOpenNonce := simOpenNonce healthy;
     simCommit := simCommit healthy;
     simSubmissionBlocks := 10 |}.

(** The topic cannot be fetched. *)
Definition topicless : Sim :=
  {| simTopic := fun _ => ({| Id := 0%N; EpochLength := 0 |}, Some "topic not found");
     simRegistered := true;
     simHeightError := simHeightError healthy;
     simOpenNonce := simOpenNonce healthy;
     simCommit := simCommit healthy;
     simSubmissionBlocks := 10 |}.

(** The height query fails. *)
Definition heightless : Sim :=
  {| simTopic := simTopic healthy;
     simRegistered := true;
     simHeightError := fun _ => Some "rpc unavailable";
     simOpenNonce := simOpenNonce healthy;
     simCommit := simCommit healthy;
     simSubmissionBlocks := 10 |}.

(** Every commit is refused. *)
Definition refusing : Sim :=
  {| simTopic := simTopic healthy;
     simRegistered := true;
     simHeightError := simHeightError healthy;
     simOpenNonce := simOpenNonce healthy;
     simCommit := fun _ => (false, Some "tx rejected");
     simSubmissionBlocks := 10 |}.

(** No worker nonce is open: the chain answers the empty nonce, without
    error. *)
Definition nonceless : Sim :=
  {| simTopic := simTopic healthy;
     simRegistered := true;
     simHeightError := simHeightError healthy;
     simOpenNonce := fun _ => (Some {| NonceBlockHeight := 0 |}, None);
     simCommit := simCommit healthy;
     simSubmissionBlocks := 10 |}.

Definition startAt {C} (c : C) : World C := mkWorld c [].

(** Two goroutines inside their loops, on a chain whose height query
    fails. *)
Definition twoLoops : System (simSuite heightless) :=
  {| procs := [WorkerLooping worker7 topic7 (workerInit (simSuite heightless));
               ReputerLooping reputer7 topic7 (reputerInit (simSuite heightless))];
     world := startAt 40 |}.

(** A worker whose window [100, 110] is known, and a reputer whose nonce
    (opened at 100) and submission window [200, 300] are known. *)
Definition workerInWindow (sim : Sim) : WorkerLoop (simSuite sim) :=
  {| mustRecalcWindow := false;
     workerWindow := ({| lower := 100; upper := 110 |} : AnticipatedWindow (simSuite sim)) |}.

Definition reputerInWindow (sim : Sim) : ReputerLoop (simSuite sim) :=
  {| latestOpenReputerNonce := Some {| NonceBlockHeight := 100 |};
     mustRecalcOpenNonceWindow := false;
     mustGetOpenNonce := false;
     mustRecalcReputerWindow := false;
     reputerWindow := ({| lower := 200; upper := 300 |} : AnticipatedWindow (simSuite sim)) |}.

(** The two loops of [Spawn] have the same shape; [spawnEach] is that
    shape, for a configuration type with a topic id. *)
Fixpoint spawnEach {A : Type} (key : A -> TopicId) (line : string)
    (cfgs : list A) (alreadyStarted : gmap TopicId bool) : list Event * list A :=
  match cfgs with
  | [] => ([], [])
  | cfg :: rest =>
      match alreadyStarted !! key cfg with
      | Some _ =>
          let '(logs, launched) := spawnEach key line rest alreadyStarted in
          (EvLog LDebug line :: logs, launched)
      | None =>
          let '(logs, launched) :=
            spawnEach key line rest (<[key cfg := true]> alreadyStarted) in
          (logs, cfg :: launched)
      end
  end.

(** The configurations of [cfgs] that are the first with their topic id. *)
Definition firstOfItsTopic {A : Type} (key : A -> TopicId) (cfgs : list A)
    (cfg : A) : Prop :=
  exists i : nat,
    cfgs !! i = Some cfg /\
    forall (j : nat) (other : A),
      (j < i)%nat -> cfgs !! j = Some other -> key other <> key cfg.

(** Three workers, two of them on topic 7, and two reputers on topic 7. *)
Definition crowdedNode : NodeConfig :=
  {| Worker := [ {| WorkerTopicId := 7%N; WorkerLabel := "first" |};
                 {| WorkerTopicId := 9%N; WorkerLabel := "other" |};
                 {| WorkerTopicId := 7%N; WorkerLabel := "second" |} ];
     Reputer := [ {| ReputerTopicId := 7%N; ReputerLabel := "first" |};
                  {| ReputerTopicId := 7%N; ReputerLabel := "second" |} ] |}.

(** A reputer inside the open-nonce window [100, 110] that still needs the
    nonce. *)
Definition reputerPolling (sim : Sim) : ReputerLoop (simSuite sim) :=
  {| latestOpenReputerNonce := None;
     mustRecalcOpenNonceWindow := false;
     mustGetOpenNonce := true;
     mustRecalcReputerWindow := true;
     reputerWindow := ({| lower := 100; upper := 110 |} : AnticipatedWindow (simSuite sim)) |}.

(** ** Reading a trace *)

(** A commit attempt made with the block height that stands for "no nonce". *)
Definition commitsAbsentNonce (e : Event) : bool :=
  match e with
  | EvBuildCommitWorkerPayload _ n _ => NonceBlockHeight n =? 0
  | EvBuildCommitReputerPayload _ h _ => h =? 0
  | _ => false
  end.

(** The heights at which worker commits succeeded: reading the trace from
    the left, each successful [BuildCommitWorkerPayload] is attributed to
    the last height the loop had read. The state of the reading is that
    last height and the heights collected so far. *)
Definition noteSuccess (acc : BlockHeight * list BlockHeight) (e : Event)
  : BlockHeight * list BlockHeight :=
  match e with
  | EvGetCurrentChainBlockHeight (h, _) => (h, acc.2)
  | EvBuildCommitWorkerPayload _ _ (true, _) => (acc.1, acc.2 ++ [acc.1])
  | _ => acc
  end.

Definition successHeights (tr : list Event) : list BlockHeight :=
  (fold_left noteSuccess tr (0, [])).2.

(** The epoch cycle a height falls in, for an epoch of [epochLength] blocks. *)
Definition epochCycle (epochLength : BlockHeight) (h : BlockHeight) : Z :=
  h / epochLength.

(** Where the worker loop stands with respect to its last successful commit:
    no success since the window was last computed ([Settled]), a success
    not yet followed by the wait ([Committed]), or a success followed by
    the wait and not yet by a new window ([Slept]). *)
Inductive Phase := Settled | Committed | Slept.

(** The events allowed in each phase; [None] when the discipline "after a
    success, wait for the next window, then recompute, before any other
    nonce query, commit or wait" is broken. *)
Definition phaseStep (p : Phase) (e : Event) : option Phase :=
  match p, e with
  | Settled, EvBuildCommitWorkerPayload _ _ (true, _) => Some Committed
  | Settled, _ => Some Settled
  | Committed, EvLog _ _ => Some Committed
  | Committed, EvWaitForNextAnticipatedWindowToStart _ _ => Some Slept
  | Committed, _ => None
  | Slept, EvGetCurrentChainBlockHeight _ => Some Slept
  | Slept, EvLog _ _ => Some Slept
  | Slept, EvCalcWorkerSoonestAnticipatedWindow _ _ => Some Settled
  | Slept, _ => None
  end.

Definition phaseAfter (tr : list Event) : option Phase :=
  fold_left (fun acc e => match acc with
                          | Some p => phaseStep p e
                          | None => None
                          end) tr (Some Settled).

(** Modelled from the spec: the contract of the window model and of the
    chain's clock that the worker loop relies on; the functions themselves
    are in another file of the package or outside the repository.
    [clock] is the chain's block height as a function of the outside state
    and [opens] is the first block of a window.
    - The block heights supplied by the chain never decrease: a height
      query answers a height between the clock before and after it, and no
      call or wait turns the clock back.
    - A window computed by [CalcWorkerSoonestAnticipatedWindow] contains no
      block before its opening and lies within one epoch cycle.
    - [WaitForNextAnticipatedWindowToStart] never returns early: called
      once the window has opened, it returns when the chain has reached
      the opening of the next window, one epoch length later. *)
Record WorkerContract (S : Suite) (topic : Topic)
    (clock : Chain S -> BlockHeight)
    (opens : AnticipatedWindow S -> BlockHeight) : Prop := {
  height_between : forall c h err c',
    GetCurrentChainBlockHeight S c = ((h, err), c') ->
    isErr err = false -> clock c <= h /\ h <= clock c';
  calc_forward : forall win0 cur c win c',
    CalcWorkerSoonestAnticipatedWindow S win0 topic cur c = (win, c') ->
    clock c <= clock c';
  nonce_forward : forall t c r c',
    GetLatestOpenWorkerNonceByTopicId S t c = (r, c') -> clock c <= clock c';
  commit_forward : forall worker n c r c',
    BuildCommitWorkerPayload S worker n c = (r, c') -> clock c <= clock c';
  wait_within_forward : forall c, clock c <= clock (WaitWithinAnticipatedWindow S c);
  wait_next_forward : forall win cur c,
    clock c <=
    clock (WaitForNextAnticipatedWindowToStart S win cur (EpochLength topic) c);
  window_in_one_cycle : forall win0 cur0 c0 win c0' h,
    CalcWorkerSoonestAnticipatedWindow S win0 topic cur0 c0 = (win, c0') ->
    BlockIsWithinWindow S win h = true ->
    opens win <= h /\
    epochCycle (EpochLength topic) h = epochCycle (EpochLength topic) (opens win);
  wait_not_early : forall win0 cur0 c0 win c0' cur c,
    CalcWorkerSoonestAnticipatedWindow S win0 topic cur0 c0 = (win, c0') ->
    opens win <= cur ->
    opens win + EpochLength topic <=
    clock (WaitForNextAnticipatedWindowToStart S win cur (EpochLength topic) c)
}.

(** *** Invariants of the worker loop under the contract *)

(** What holds of the trace at any time: the discipline is kept and no two
    successful commits fall in the same epoch cycle. *)
Definition tidyTrace (C : Type) (epochLength : BlockHeight) (w : World C) : Prop :=
  is_Some (phaseAfter (trace w)) /\
  NoDup (epochCycle epochLength <$> successHeights (trace w)).

(** What holds between two passes of the worker loop: moreover every
    successful commit lies in an epoch cycle the chain has left, and a
    window that is not stale was computed by
    [CalcWorkerSoonestAnticipatedWindow]. *)
Definition settledLoop (S : Suite) (topic : Topic)
    (clock : Chain S -> BlockHeight)
    (st : WorkerLoop S) (w : World (Chain S)) : Prop :=
  (phaseAfter (trace w) = Some Settled \/
   (phaseAfter (trace w) = Some Slept /\ mustRecalcWindow st = true)) /\
  NoDup (epochCycle (EpochLength topic) <$> successHeights (trace w)) /\
  (forall k, k ∈ epochCycle (EpochLength topic) <$> successHeights (trace w) ->
             k < epochCycle (EpochLength topic) (clock (chain w))) /\
  (mustRecalcWindow st = false ->
   exists win0 cur0 c0 c0',
     CalcWorkerSoonestAnticipatedWindow S win0 topic cur0 c0 =
       (workerWindow st, c0')).

(** What holds inside a pass once the height [h] is read and the window is
    known. *)
Definition readyLoop (S : Suite) (topic : Topic)
    (clock : Chain S -> BlockHeight)
    (h : BlockHeight) (st : WorkerLoop S) (w : World (Chain S)) : Prop :=
  phaseAfter (trace w) = Some Settled /\
  (exists succ,
      fold_left noteSuccess (trace w) (0, []) = (h, succ) /\
      NoDup (epochCycle (EpochLength topic) <$> succ) /\
      forall k, k ∈ epochCycle (EpochLength topic) <$> succ ->
                k < epochCycle (EpochLength topic) h) /\
  h <= clock (chain w) /\
  exists win0 cur0 c0 c0',
    CalcWorkerSoonestAnticipatedWindow S win0 topic cur0 c0 =
      (workerWindow st, c0').

(** A computation keeps a property of events when the events it adds to a
    trace all have it. *)
Definition keeps {C A : Type} (P : Event -> Prop) (m : M C A) : Prop :=
  forall w, Forall P (trace w) -> Forall P (trace (m w).2).

(** ** More readings of a trace *)

Definition isWait (e : Event) : bool :=
  match e with
  | EvWaitForNextAnticipatedWindowToStart _ _
  | EvWaitWithinAnticipatedWindow
  | EvWaitForNextReputerAnticipatedWindowToStart _ _ _ => true
  | _ => false
  end.

Definition isTopicQuery (e : Event) : bool :=
  match e with EvGetTopicById _ _ => true | _ => false end.

Definition isRegistration (e : Event) : bool :=
  match e with
  | EvRegisterWorkerIdempotently _ _
  | EvRegisterAndStakeReputerIdempotently _ _ => true
  | _ => false
  end.

Definition isNonceQuery (e : Event) : bool :=
  match e with EvGetLatestOpenWorkerNonceByTopicId _ _ => true | _ => false end.

Definition isCalcWorker (e : Event) : bool :=
  match e with EvCalcWorkerSoonestAnticipatedWindow _ _ => true | _ => false end.

Definition isCalcReputer (e : Event) : bool :=
  match e with EvCalcReputerSoonestAnticipatedWindow _ _ => true | _ => false end.

Definition isWorkerCommit (e : Event) : bool :=
  match e with EvBuildCommitWorkerPayload _ _ _ => true | _ => false end.

Definition isWorkerSuccess (e : Event) : bool :=
  match e with EvBuildCommitWorkerPayload _ _ (true, _) => true | _ => false end.

Definition isReputerSuccess (e : Event) : bool :=
  match e with EvBuildCommitReputerPayload _ _ (true, _) => true | _ => false end.

(** The answer that makes a loop give up: a topic query or a height query
    that failed, a registration that was refused. *)
Definition isFatalAnswer (e : Event) : bool :=
  match e with
  | EvGetTopicById _ (_, Some _) => true
  | EvRegisterWorkerIdempotently _ false => true
  | EvRegisterAndStakeReputerIdempotently _ false => true
  | EvGetCurrentChainBlockHeight (_, Some _) => true
  | _ => false
  end.

(** A nonce query answered by a [nil] pointer. *)
Definition isNilNonceAnswer (e : Event) : bool :=
  match e with
  | EvGetLatestOpenWorkerNonceByTopicId _ (None, _) => true
  | _ => false
  end.

Definition countEvents (p : Event -> bool) (tr : list Event) : nat :=
  length (List.filter p tr).

(** The answers of the nonce queries of a trace, and the block heights the
    reputer commits of a trace were attempted with. *)
Definition nonceAnswers (tr : list Event) : list (option Nonce * error) :=
  flat_map (fun e => match e with
                     | EvGetLatestOpenWorkerNonceByTopicId _ res => [res]
                     | _ => []
                     end) tr.

Definition reputerCommitHeights (tr : list Event) : list BlockHeight :=
  flat_map (fun e => match e with
                     | EvBuildCommitReputerPayload _ h _ => [h]
                     | _ => []
                     end) tr.

#[global] Instance Nonce_eq_dec : EqDecision Nonce.
Proof. solve_decision. Defined.

(** The nonce a worker commit may use: the one answered, valid, by the last
    nonce query since the height was last read, and not used yet. The
    reading is [None] once a commit has been attempted with anything else. *)
Definition freshStep (acc : option (option Nonce)) (e : Event)
  : option (option Nonce) :=
  match acc with
  | None => None
  | Some last =>
      match e with
      | EvGetCurrentChainBlockHeight _ => Some None
      | EvGetLatestOpenWorkerNonceByTopicId _ (Some n, None) =>
          if NonceBlockHeight n =? 0 then Some None else Some (Some n)
      | EvGetLatestOpenWorkerNonceByTopicId _ _ => Some None
      | EvBuildCommitWorkerPayload _ n _ =>
          if decide (last = Some n) then Some None else None
      | _ => Some last
      end
  end.

Definition commitsAreFresh (tr : list Event) : Prop :=
  is_Some (fold_left freshStep tr (Some None)).

(** A computation that only adds to the trace, and only events with a given
    property. *)
Definition appends {C A : Type} (P : Event -> Prop) (m : M C A) : Prop :=
  forall w, exists evs, trace (m w).2 = trace w ++ evs /\ Forall P evs.

(** Two workers and one reputer, no topic id repeated within a role; the
    reputer shares topic 7 with a worker. *)
Definition tidyNode : NodeConfig :=
  {| Worker := [ {| WorkerTopicId := 7%N; WorkerLabel := "first" |};
                 {| WorkerTopicId := 9%N; WorkerLabel := "other" |} ];
     Reputer := [ {| ReputerTopicId := 7%N; ReputerLabel := "first" |} ] |}.

(** What a worker started with [worker] may commit: a worker payload for
    that configuration and a nonce whose block height is not 0, never a
    reputer payload. *)
Definition ownOpenCommit (worker : WorkerConfig) (e : Event) : Prop :=
  match e with
  | EvBuildCommitWorkerPayload wk n _ => wk = worker /\ NonceBlockHeight n <> 0
  | EvBuildCommitReputerPayload _ _ _ => False
  | _ => True
  end.

(** * Properties *)

(** ** Proof tools *)

(** Unfold the monad and the collaborator wrappers down to state passing. *)
Ltac unfold_m :=
  unfold getTopicById, registerWorkerIdempotently,
    registerAndStakeReputerIdempotently, getCurrentChainBlockHeight,
    getLatestOpenWorkerNonceByTopicId, buildCommitWorkerPayload,
    buildCommitReputerPayload, calcWorkerSoonestAnticipatedWindow,
    calcReputerSoonestAnticipatedWindow, waitForNextAnticipatedWindowToStart,
    waitForNextReputerAnticipatedWindowToStart, waitWithinAnticipatedWindow,
    log, emit, call, wait, when, deref,
    mbind, M_bind, bind, mret, M_ret, ret in *.

(** Replace a collaborator call by its known answer. *)
Ltac answer H := simpl in *; rewrite ?H; simpl in *.

Lemma app_assoc_cons {A} (l : list A) (x : A) (r : list A) :
  (l ++ [x]) ++ r = l ++ x :: r.
Proof. by rewrite <- app_assoc. Qed.

Ltac flat_trace := rewrite ?app_assoc_cons, ?app_nil_r.

(** ** Start-up failures *)

Section Startup.

Context (S : Suite).

(** C10. For both roles, when [GetTopicById] answers with an error at the
    start of the loop, the function logs and returns before the
    registration: the whole trace is the start-up line, the failed query
    and the error line, whatever the number of iterations observed. *)
Theorem getTopicById_error_is_fatal
    (fuel : nat) (worker : WorkerConfig) (reputer : ReputerConfig)
    (w : World (Chain S)) :
  (forall topic err c',
      GetTopicById S (WorkerTopicId worker) (chain w) = ((topic, err), c') ->
      isErr err = true ->
      runWorkerProcess S fuel worker w =
        (Ok Returned,
         mkWorld c'
           (trace w ++
            [EvLog LInfo "Running worker process for topic";
             EvGetTopicById (WorkerTopicId worker) (topic, err);
             EvLog LError "Failed to get topic"]))) /\
  (forall topic err c',
      GetTopicById S (ReputerTopicId reputer) (chain w) = ((topic, err), c') ->
      isErr err = true ->
      runReputerProcess S fuel reputer w =
        (Ok Returned,
         mkWorld c'
           (trace w ++
            [EvLog LDebug "Running reputer process for topic";
             EvGetTopicById (ReputerTopicId reputer) (topic, err);
             EvLog LError "Failed to get topic"]))).
Proof.
  split; intros topic err c' Hget Herr.
  - unfold runWorkerProcess, workerStart. unfold_m.
    answer Hget. answer Herr. by flat_trace.
  - unfold runReputerProcess, reputerStart. unfold_m.
    answer Hget. answer Herr. by flat_trace.
Qed.

(** C5. For both roles, when the idempotent registration answers [false],
    the function logs and returns at once: the trace holds the start-up
    line, the topic query, the registration and the error line, and no
    height query, window computation, nonce query or commit, whatever the
    number of iterations observed. *)
Theorem registration_failure_is_fatal
    (fuel : nat) (worker : WorkerConfig) (reputer : ReputerConfig)
    (w : World (Chain S)) :
  (forall topic err c1 c2,
      GetTopicById S (WorkerTopicId worker) (chain w) = ((topic, err), c1) ->
      isErr err = false ->
      RegisterWorkerIdempotently S worker c1 = (false, c2) ->
      runWorkerProcess S fuel worker w =
        (Ok Returned,
         mkWorld c2
           (trace w ++
            [EvLog LInfo "Running worker process for topic";
             EvGetTopicById (WorkerTopicId worker) (topic, err);
             EvRegisterWorkerIdempotently worker false;
             EvLog LError "Failed to register worker for topic"]))) /\
  (forall topic err c1 c2,
      GetTopicById S (ReputerTopicId reputer) (chain w) = ((topic, err), c1) ->
      isErr err = false ->
      RegisterAndStakeReputerIdempotently S reputer c1 = (false, c2) ->
      runReputerProcess S fuel reputer w =
        (Ok Returned,
         mkWorld c2
           (trace w ++
            [EvLog LDebug "Running reputer process for topic";
             EvGetTopicById (ReputerTopicId reputer) (topic, err);
             EvRegisterAndStakeReputerIdempotently reputer false;
             EvLog LError
               "Failed to register or sufficiently stake reputer for topic"]))).
Proof.
  split; intros topic err c1 c2 Hget Herr Hreg.
  - unfold runWorkerProcess, workerStart. unfold_m.
    answer Hget. answer Herr. answer Hreg. by flat_trace.
  - unfold runReputerProcess, reputerStart. unfold_m.
    answer Hget. answer Herr. answer Hreg. by flat_trace.
Qed.

End Startup.

Lemma getTopicById_error_is_fatal_witness :
  GetTopicById (simSuite topicless) 7%N 40 =
    (({| Id := 0%N; EpochLength := 0 |}, Some "topic not found"), 40) /\
  runWorkerProcess (simSuite topicless) 5 worker7 (startAt 40) =
    (Ok Returned,
     mkWorld 40
       [EvLog LInfo "Running worker process for topic";
        EvGetTopicById 7%N
          ({| Id := 0%N; EpochLength := 0 |}, Some "topic not found");
        EvLog LError "Failed to get topic"]) /\
  runReputerProcess (simSuite topicless) 5 reputer7 (startAt 40) =
    (Ok Returned,
     mkWorld 40
       [EvLog LDebug "Running reputer process for topic";
        EvGetTopicById 7%N
          ({| Id := 0%N; EpochLength := 0 |}, Some "topic not found");
        EvLog LError "Failed to get topic"]).
Proof.
  destruct (getTopicById_error_is_fatal (simSuite topicless) 5 worker7 reputer7
              (startAt 40)) as [Hw Hr].
  split; [reflexivity|].
  split; [apply (Hw _ _ _ eq_refl eq_refl) | apply (Hr _ _ _ eq_refl eq_refl)].
Defined.

Lemma registration_failure_is_fatal_witness :
  RegisterWorkerIdempotently (simSuite unregistered) worker7 40 = (false, 40) /\
  RegisterAndStakeReputerIdempotently (simSuite unregistered) reputer7 40 =
    (false, 40) /\
  runWorkerProcess (simSuite unregistered) 5 worker7 (startAt 40) =
    (Ok Returned,
     mkWorld 40
       [EvLog LInfo "Running worker process for topic";
        EvGetTopicById 7%N (topic7, None);
        EvRegisterWorkerIdempotently worker7 false;
        EvLog LError "Failed to register worker for topic"]) /\
  runReputerProcess (simSuite unregistered) 5 reputer7 (startAt 40) =
    (Ok Returned,
     mkWorld 40
       [EvLog LDebug "Running reputer process for topic";
        EvGetTopicById 7%N (topic7, None);
        EvRegisterAndStakeReputerIdempotently reputer7 false;
        EvLog LError
          "Failed to register or sufficiently stake reputer for topic"]).
Proof.
  destruct (registration_failure_is_fatal (simSuite unregistered) 5 worker7
              reputer7 (startAt 40)) as [Hw Hr].
  split; [reflexivity|]. split; [reflexivity|].
  split; [apply (Hw _ _ _ _ eq_refl eq_refl eq_refl)
         | apply (Hr _ _ _ _ eq_refl eq_refl eq_refl)].
Defined.

(** ** A failed height query ends one loop and only that one *)

Section HeightFailure.

Context (S : Suite).

Lemma workerIteration_height_error (worker : WorkerConfig) (topic : Topic)
    (st : WorkerLoop S) (w : World (Chain S)) h err c' :
  GetCurrentChainBlockHeight S (chain w) = ((h, err), c') ->
  isErr err = true ->
  workerIteration S worker topic st w =
    (Ok Return,
     mkWorld c'
       (trace w ++
        [EvGetCurrentChainBlockHeight (h, err);
         EvLog LError "Error getting chain block height for worker job on topic"])).
Proof.
  intros Hh Herr. unfold workerIteration. unfold_m.
  answer Hh. answer Herr. by flat_trace.
Qed.

Lemma reputerIteration_height_error (reputer : ReputerConfig) (topic : Topic)
    (st : ReputerLoop S) (w : World (Chain S)) h err c' :
  GetCurrentChainBlockHeight S (chain w) = ((h, err), c') ->
  isErr err = true ->
  reputerIteration S reputer topic st w =
    (Ok Return,
     mkWorld c'
       (trace w ++
        [EvGetCurrentChainBlockHeight (h, err);
         EvLog LError "Error getting chain block height for reputer job on topic"])).
Proof.
  intros Hh Herr. unfold reputerIteration. unfold_m.
  answer Hh. answer Herr. by flat_trace.
Qed.

(** C6. In any iteration of either loop, when [GetCurrentChainBlockHeight]
    answers with an error the loop writes its error line and returns: the
    pass adds the failed query and the line to the trace and nothing else
    (no window computation, no commit). The goroutine ends by a return, not
    a panic, so the process goes on, and the local state of every other
    goroutine is what it was. Once returned, a goroutine does nothing. *)
Theorem height_error_ends_only_that_loop
    (i : nat) (s : System S) (p : Proc S) h err c' :
  procs s !! i = Some p ->
  isLooping p = true ->
  GetCurrentChainBlockHeight S (chain (world s)) = ((h, err), c') ->
  isErr err = true ->
  exists s',
    sysStep S i s = SysOk s' /\
    procs s' !! i = Some Exited /\
    (forall j, j <> i -> procs s' !! j = procs s !! j) /\
    length (procs s') = length (procs s) /\
    world s' =
      mkWorld c'
        (trace (world s) ++
         [EvGetCurrentChainBlockHeight (h, err);
          EvLog LError (heightErrorLine p)]) /\
    (forall w, procStep S Exited w = (Ok Exited, w)).
Proof.
  intros Hp Hloop Hh Herr.
  assert (Hstep : procStep S p (world s) =
                  (Ok Exited,
                   mkWorld c'
                     (trace (world s) ++
                      [EvGetCurrentChainBlockHeight (h, err);
                       EvLog LError (heightErrorLine p)]))).
  { destruct p; try discriminate; cbn [procStep heightErrorLine].
    - unfold mbind at 1, M_bind, bind.
      by rewrite (workerIteration_height_error _ _ _ _ _ _ _ Hh Herr).
    - unfold mbind at 1, M_bind, bind.
      by rewrite (reputerIteration_height_error _ _ _ _ _ _ _ Hh Herr). }
  eexists. unfold sysStep. rewrite Hp, Hstep. split; [reflexivity|].
  cbn [procs world]. repeat split.
  - apply list_lookup_insert_eq. by eapply lookup_lt_Some.
  - intros j Hj. by apply list_lookup_insert_ne.
  - apply length_insert.
Qed.

End HeightFailure.

Lemma height_error_ends_only_that_loop_witness :
  exists s',
    sysStep (simSuite heightless) 0 twoLoops = SysOk s' /\
    procs s' !! 0%nat = Some Exited /\
    (forall j, j <> 0%nat -> procs s' !! j = procs twoLoops !! j) /\
    length (procs s') = 2%nat /\
    world s' =
      mkWorld 41
        [EvGetCurrentChainBlockHeight (40, Some "rpc unavailable");
         EvLog LError "Error getting chain block height for worker job on topic"] /\
    (forall w, procStep (simSuite heightless) Exited w = (Ok Exited, w)).
Proof.
  apply (height_error_ends_only_that_loop (simSuite heightless) 0 twoLoops
           (WorkerLooping worker7 topic7 (workerInit (simSuite heightless)))
           40 (Some "rpc unavailable") 41); reflexivity.
Defined.

(** ** What a commit attempt does to the loop *)

Section CommitOutcome.

Context (S : Suite).



End CommitOutcome.



(** ** The dispatcher *)

Section Dedup.

Context {A : Type} (key : A -> TopicId) (line : string).

Lemma spawnEach_cons (cfg : A) (rest : list A) (m : gmap TopicId bool) :
  spawnEach key line (cfg :: rest) m =
  match m !! key cfg with
  | Some _ =>
      (EvLog LDebug line :: (spawnEach key line rest m).1,
       (spawnEach key line rest m).2)
  | None =>
      ((spawnEach key line rest (<[key cfg := true]> m)).1,
       cfg :: (spawnEach key line rest (<[key cfg := true]> m)).2)
  end.
Proof.
  simpl. destruct (m !! key cfg).
  - by destruct (spawnEach key line rest m).
  - by destruct (spawnEach key line rest (<[key cfg:=true]> m)).
Qed.

(** The launched configurations carry exactly the topic ids of the list
    that were not started before, each once. *)
Lemma spawnEach_topics (cfgs : list A) (m : gmap TopicId bool) :
  NoDup (key <$> (spawnEach key line cfgs m).2) /\
  forall t, t ∈ key <$> (spawnEach key line cfgs m).2 <->
            t ∈ key <$> cfgs /\ m !! t = None.
Proof.
  revert m. induction cfgs as [|cfg rest IH]; intros m.
  - simpl. split; [constructor|]. intros t. split.
    + by intros ?%elem_of_nil.
    + by intros [?%elem_of_nil _].
  - rewrite spawnEach_cons. destruct (m !! key cfg) as [b|] eqn:Hm.
    + destruct (IH m) as [Hnd Hiff]. cbn [snd]. split; [done|].
      intros t. rewrite fmap_cons, elem_of_cons. split.
      * intros Hin. apply Hiff in Hin as [? ?]. by split; [right|].
      * intros [[->|?] Hnone]; [congruence | by apply Hiff].
    + destruct (IH (<[key cfg := true]> m)) as [Hnd Hiff]. cbn [snd].
      rewrite fmap_cons. split.
      * constructor; [|done]. intros Hin. apply Hiff in Hin as [_ Hnone].
        by rewrite lookup_insert_eq in Hnone.
      * intros t. rewrite !fmap_cons, !elem_of_cons. split.
        -- intros [->|Hin]; [by split; [left|] |].
           apply Hiff in Hin as [Hin Hnone].
           destruct (decide (key cfg = t)) as [<-|Hne].
           ++ by rewrite lookup_insert_eq in Hnone.
           ++ rewrite lookup_insert_ne in Hnone by done. by split; [right|].
        -- intros [[->|Hin] Hnone]; [by left|].
           destruct (decide (key cfg = t)) as [<-|Hne]; [by left|].
           right. apply Hiff. split; [done|]. by rewrite lookup_insert_ne.
Qed.

(** Every launched configuration is the first of the list with its id. *)
Lemma spawnEach_first (cfgs : list A) (m : gmap TopicId bool) (cfg : A) :
  cfg ∈ (spawnEach key line cfgs m).2 -> firstOfItsTopic key cfgs cfg.
Proof.
  revert m. induction cfgs as [|c rest IH]; intros m.
  - simpl. by intros ?%elem_of_nil.
  - rewrite spawnEach_cons. destruct (m !! key c) as [b|] eqn:Hm; cbn [snd].
    + intros Hin. destruct (IH _ Hin) as (i & Hi & Hfirst).
      exists (Datatypes.S i). split; [done|]. intros [|j] other Hlt Hj.
      * simpl in Hj. injection Hj as <-. intros Heq.
        assert (Hk : key cfg ∈ key <$> (spawnEach key line rest m).2)
          by (by apply list_elem_of_fmap_2).
        apply (proj2 (spawnEach_topics rest m)) in Hk. destruct Hk as [_ Hk].
        congruence.
      * apply (Hfirst j); [lia | done].
    + intros [->|Hin]%elem_of_cons.
      * exists 0%nat. split; [done|]. intros j other Hlt. lia.
      * destruct (IH _ Hin) as (i & Hi & Hfirst).
        exists (Datatypes.S i). split; [done|]. intros [|j] other Hlt Hj.
        -- simpl in Hj. injection Hj as <-. intros Heq.
           assert (Hk : key cfg ∈
                        key <$> (spawnEach key line rest (<[key c:=true]> m)).2)
             by (by apply list_elem_of_fmap_2).
           apply (proj2 (spawnEach_topics rest _)) in Hk. destruct Hk as [_ Hk].
           by rewrite Heq, lookup_insert_eq in Hk.
        -- apply (Hfirst j); [lia | done].
Qed.

(** Every configuration is either launched or answered by one diagnostic. *)
Lemma spawnEach_logs (cfgs : list A) (m : gmap TopicId bool) :
  (spawnEach key line cfgs m).1 =
    replicate (length cfgs - length (spawnEach key line cfgs m).2)
              (EvLog LDebug line) /\
  (length (spawnEach key line cfgs m).2 <= length cfgs)%nat.
Proof.
  revert m. induction cfgs as [|c rest IH]; intros m; [done|].
  rewrite spawnEach_cons. destruct (m !! key c) as [b|] eqn:Hm; cbn [fst snd].
  - destruct (IH m) as [-> Hle]. split; [|simpl; lia].
    replace (length (c :: rest) - length (spawnEach key line rest m).2)%nat
      with (Datatypes.S (length rest - length (spawnEach key line rest m).2))
      by (simpl; lia).
    done.
  - destruct (IH (<[key c:=true]> m)) as [-> Hle]. split; [done | simpl; lia].
Qed.

(** With no topic started before, there are as many launched
    configurations as distinct topic ids. *)
Lemma spawnEach_count (cfgs : list A) :
  length (spawnEach key line cfgs ∅).2 =
  size (list_to_set (key <$> cfgs) : gset TopicId).
Proof.
  destruct (spawnEach_topics cfgs ∅) as [Hnd Hiff].
  rewrite <- (length_fmap key), <- (size_list_to_set (C := gset TopicId)) by done.
  f_equal. apply set_eq. intros t. rewrite !elem_of_list_to_set. split.
  - intros Hin. by apply Hiff in Hin as [? _].
  - intros Hin. apply Hiff. split; [done | apply lookup_empty].
Qed.

End Dedup.

Lemma spawnWorkers_spawnEach (workers : list WorkerConfig) (m : gmap TopicId bool) :
  spawnWorkers workers m =
  spawnEach WorkerTopicId "Worker already started for topicId" workers m.
Proof.
  revert m. induction workers as [|w rest IH]; intros m; [done|].
  simpl. destruct (m !! WorkerTopicId w); by rewrite IH.
Qed.

Lemma spawnReputers_spawnEach (reputers : list ReputerConfig) (m : gmap TopicId bool) :
  spawnReputers reputers m =
  spawnEach ReputerTopicId "Reputer already started for topicId" reputers m.
Proof.
  revert m. induction reputers as [|r rest IH]; intros m; [done|].
  simpl. destruct (m !! ReputerTopicId r); by rewrite IH.
Qed.

(** C2. For any configured workers and reputers, [Spawn] starts, in each
    role, one task per distinct topic id of that role's list: the started
    configurations have pairwise distinct ids, cover every id of the list,
    and each is the first of the list with its id; every other
    configuration only costs one diagnostic line. So the number of tasks of
    a role is the number of distinct topic ids in its list. *)
Theorem Spawn_one_task_per_role_and_topic (S : Suite) (node : NodeConfig) :
  exists (ws : list WorkerConfig) (rs : list ReputerConfig),
    Spawn S node =
      (replicate (length (Worker node) - length ws)
                 (EvLog LDebug "Worker already started for topicId") ++
       replicate (length (Reputer node) - length rs)
                 (EvLog LDebug "Reputer already started for topicId"),
       (WorkerLaunched <$> ws) ++ (ReputerLaunched <$> rs)) /\
    (NoDup (WorkerTopicId <$> ws) /\
     (forall t, t ∈ WorkerTopicId <$> ws <-> t ∈ WorkerTopicId <$> Worker node) /\
     (forall w, w ∈ ws -> firstOfItsTopic WorkerTopicId (Worker node) w) /\
     length ws = size (list_to_set (WorkerTopicId <$> Worker node) : gset TopicId)) /\
    (NoDup (ReputerTopicId <$> rs) /\
     (forall t, t ∈ ReputerTopicId <$> rs <-> t ∈ ReputerTopicId <$> Reputer node) /\
     (forall r, r ∈ rs -> firstOfItsTopic ReputerTopicId (Reputer node) r) /\
     length rs = size (list_to_set (ReputerTopicId <$> Reputer node) : gset TopicId)).
Proof.
  set (wline := "Worker already started for topicId").
  set (rline := "Reputer already started for topicId").
  exists (spawnEach WorkerTopicId wline (Worker node) ∅).2,
         (spawnEach ReputerTopicId rline (Reputer node) ∅).2.
  split; [|split].
  - unfold Spawn. rewrite spawnWorkers_spawnEach, spawnReputers_spawnEach.
    fold wline rline.
    destruct (spawnEach_logs WorkerTopicId wline (Worker node) ∅) as [Hw _].
    destruct (spawnEach_logs ReputerTopicId rline (Reputer node) ∅) as [Hr _].
    destruct (spawnEach WorkerTopicId wline (Worker node) ∅) as [wl ws].
    destruct (spawnEach ReputerTopicId rline (Reputer node) ∅) as [rl rs].
    cbn [fst snd] in *. by rewrite Hw, Hr.
  - destruct (spawnEach_topics WorkerTopicId wline (Worker node) ∅) as [Hnd Hiff].
    repeat split.
    + done.
    + intros Hin. by apply Hiff in Hin as [? _].
    + intros Hin. apply Hiff. split; [done | apply lookup_empty].
    + intros w. apply spawnEach_first.
    + apply spawnEach_count.
  - destruct (spawnEach_topics ReputerTopicId rline (Reputer node) ∅) as [Hnd Hiff].
    repeat split.
    + done.
    + intros Hin. by apply Hiff in Hin as [? _].
    + intros Hin. apply Hiff. split; [done | apply lookup_empty].
    + intros r. apply spawnEach_first.
    + apply spawnEach_count.
Qed.

(** Two workers and two reputers on topic 7: one task each, the first. *)
Example Spawn_crowdedNode (S : Suite) :
  Spawn S crowdedNode =
    ([EvLog LDebug "Worker already started for topicId";
      EvLog LDebug "Reputer already started for topicId"],
     [WorkerLaunched {| WorkerTopicId := 7%N; WorkerLabel := "first" |};
      WorkerLaunched {| WorkerTopicId := 9%N; WorkerLabel := "other" |};
      ReputerLaunched {| ReputerTopicId := 7%N; ReputerLabel := "first" |}]).
Proof. reflexivity. Qed.

(** ** The worker loop never commits with the empty nonce *)

Section Keeps.

Context {C : Type} (P : Event -> Prop).

Lemma keeps_ret {A} (a : A) : keeps (C := C) P (ret a).
Proof. by intros w Hw. Qed.

Lemma keeps_bind {A B} (m : M C A) (k : A -> M C B) :
  keeps P m -> (forall a, keeps P (k a)) -> keeps P (m ≫= k).
Proof.
  intros Hm Hk w Hw. unfold mbind, M_bind, bind.
  specialize (Hm w Hw). destruct (m w) as [[a|msg] w']; [by apply Hk | done].
Qed.

Lemma keeps_emit (e : Event) : P e -> keeps (C := C) P (emit e).
Proof.
  intros He w Hw. cbn. apply Forall_app. split; [done | by constructor].
Qed.

Lemma keeps_log (lvl : Level) (msg : string) :
  P (EvLog lvl msg) -> keeps (C := C) P (log lvl msg).
Proof. apply keeps_emit. Qed.

Lemma keeps_call {A} (f : C -> A * C) (ev : A -> Event) :
  (forall a, P (ev a)) -> keeps P (call f ev).
Proof.
  intros He w Hw. unfold call. destruct (f (chain w)) as [a c']. cbn.
  apply Forall_app. split; [done | by constructor].
Qed.

Lemma keeps_wait (f : C -> C) (e : Event) : P e -> keeps P (wait f e).
Proof.
  intros He w Hw. cbn. apply Forall_app. split; [done | by constructor].
Qed.

Lemma keeps_deref (p : option Nonce) : keeps (C := C) P (deref p).
Proof. destruct p; by intros w Hw. Qed.

Lemma keeps_when (b : bool) (m : M C unit) : keeps P m -> keeps P (when b m).
Proof. destruct b; [done | intros _; apply keeps_ret]. Qed.

Lemma keeps_forever {St} (body : St -> M C (Ctl St)) :
  (forall st, keeps P (body st)) ->
  forall fuel st, keeps P (forever body fuel st).
Proof.
  intros Hbody fuel. induction fuel as [|n IH]; intros st.
  - apply keeps_ret.
  - cbn [forever]. apply keeps_bind; [done|].
    intros [st'|]; [apply IH | apply keeps_ret].
Qed.

End Keeps.

Ltac keeps_step :=
  first
    [ apply keeps_ret
    | apply keeps_log; done
    | apply keeps_emit; done
    | apply keeps_wait; done
    | apply keeps_deref
    | apply keeps_when
    | apply keeps_call; intros ?; done
    | apply keeps_bind; [|intros ?]
    | match goal with
      | |- keeps _ (let '(_, _) := ?x in _) => destruct x
      | |- keeps _ (if ?b then _ else _) => destruct b eqn:?
      | |- keeps _ (match ?x with _ => _ end) => destruct x
      end ].

Section WorkerNonce.

Context (S : Suite).

Local Abbreviation present := (fun e : Event => commitsAbsentNonce e = false).

Lemma workerIteration_present (worker : WorkerConfig) (topic : Topic)
    (st : WorkerLoop S) :
  keeps present (workerIteration S worker topic st).
Proof.
  unfold workerIteration, workerRecalc, workerAct,
    getCurrentChainBlockHeight, calcWorkerSoonestAnticipatedWindow,
    getLatestOpenWorkerNonceByTopicId, waitForNextAnticipatedWindowToStart,
    waitWithinAnticipatedWindow.
  repeat keeps_step.
  all: unfold buildCommitWorkerPayload; apply keeps_call; intros res; cbn.
  all: match goal with
       | H : negb (_ || _) = true |- _ =>
           apply negb_true_iff, orb_false_iff in H; by destruct H
       end.
Qed.

(** Whatever the chain answers, no event of a worker run is a commit
    attempt with block height 0. *)
Lemma worker_never_commits_absent_nonce
    (fuel : nat) (worker : WorkerConfig) (w : World (Chain S)) :
  Forall present (trace w) ->
  Forall present (trace (runWorkerProcess S fuel worker w).2).
Proof.
  revert w. change (keeps present (runWorkerProcess S fuel worker)).
  unfold runWorkerProcess, workerStart, getTopicById,
    registerWorkerIdempotently.
  repeat keeps_step.
  apply keeps_forever. intros st. apply workerIteration_present.
Qed.

End WorkerNonce.

(** ** The open nonce in the reputer loop *)

(** C1. The claim fails on the reputer loop. On a chain at height 109 with
    no open worker nonce (the query answers the empty nonce), the loop
    polls inside the open-nonce window [100, 110] at heights 109 and 110 and
    takes the [continue] of line 151 both times, keeping the empty nonce in
    [latestOpenReputerNonce]. At height 111 the window has closed, so the
    query of line 146 is skipped; line 157 computes the reputer window from
    block height 0, height 111 is inside it, and line 163 calls
    [BuildCommitReputerPayload] with block height 0. *)
Theorem reputer_commits_with_absent_nonce :
  runReputerProcess (simSuite nonceless) 3 reputer7 (startAt 109) =
    (Ok (Running {| latestOpenReputerNonce := Some {| NonceBlockHeight := 0 |};
                    mustRecalcOpenNonceWindow := true;
                    mustGetOpenNonce := true;
                    mustRecalcReputerWindow := true;
                    reputerWindow :=
                      ({| lower := 100; upper := 200 |}
                        : AnticipatedWindow (simSuite nonceless)) |}),
     mkWorld 200
       [EvLog LDebug "Running reputer process for topic";
        EvGetTopicById 7%N (topic7, None);
        EvRegisterAndStakeReputerIdempotently reputer7 true;
        EvGetCurrentChainBlockHeight (109, None);
        EvCalcWorkerSoonestAnticipatedWindow topic7 109;
        EvLog LDebug "Reputer anticipated window for open nonce for topic";
        EvGetLatestOpenWorkerNonceByTopicId 7%N
          (Some {| NonceBlockHeight := 0 |}, None);
        EvPrintln 0;
        EvLog LError "Error getting latest open reputer nonce on topic";
        EvGetCurrentChainBlockHeight (110, None);
        EvGetLatestOpenWorkerNonceByTopicId 7%N
          (Some {| NonceBlockHeight := 0 |}, None);
        EvPrintln 0;
        EvLog LError "Error getting latest open reputer nonce on topic";
        EvGetCurrentChainBlockHeight (111, None);
        EvCalcReputerSoonestAnticipatedWindow topic7 0;
        EvLog LDebug "Reputer anticipated window for submission for topic";
        EvBuildCommitReputerPayload reputer7 0 (true, None);
        EvWaitForNextAnticipatedWindowToStart 111 100]).
Proof. vm_compute. reflexivity. Qed.

Section ReputerNonce.

Context (S : Suite).

(** C3. The claim fails on the code. When the first height the reputer
    loop sees is outside the open-nonce window, the query of line 146 is
    skipped and line 157 is reached with [latestOpenReputerNonce] still
    [nil]: reading its [BlockHeight] panics. No nonce query appears in the
    trace. *)
Theorem reputer_reads_nonce_before_any_fetch
    (fuel : nat) (reputer : ReputerConfig) (w : World (Chain S))
    topic c1 c2 h c3 win c4 :
  GetTopicById S (ReputerTopicId reputer) (chain w) = ((topic, None), c1) ->
  RegisterAndStakeReputerIdempotently S reputer c1 = (true, c2) ->
  GetCurrentChainBlockHeight S c2 = ((h, None), c3) ->
  CalcWorkerSoonestAnticipatedWindow S (zeroWindow S) topic h c3 = (win, c4) ->
  BlockIsWithinWindow S win h = false ->
  runReputerProcess S (Datatypes.S fuel) reputer w =
    (Panic "invalid memory address or nil pointer dereference",
     mkWorld c4
       (trace w ++
        [EvLog LDebug "Running reputer process for topic";
         EvGetTopicById (ReputerTopicId reputer) (topic, None);
         EvRegisterAndStakeReputerIdempotently reputer true;
         EvGetCurrentChainBlockHeight (h, None);
         EvCalcWorkerSoonestAnticipatedWindow topic h;
         EvLog LDebug "Reputer anticipated window for open nonce for topic"])).
Proof.
  intros Htopic Hreg Hh Hcalc Hout.
  unfold runReputerProcess, reputerStart. unfold_m.
  answer Htopic. answer Hreg.
  unfold reputerIteration, reputerRecalcOpenNonceWindow, reputerGetOpenNonce,
    reputerRecalcReputerWindow, reputerInit. unfold_m.
  answer Hh. answer Hcalc. answer Hout. by flat_trace.
Qed.

(** C4. The claim fails on the reputer loop for a failed nonce query. With
    the height inside the open-nonce window, when the query answers the
    empty nonce or an error, the pass ends by the [continue] of line 151:
    it adds the height query, the nonce query, the printed height and the
    error line to the trace, and no wait; the outside state is the one the
    nonce query left. The next pass starts at once. *)
Theorem reputer_nonce_failure_does_not_back_off
    (reputer : ReputerConfig) (topic : Topic) (st : ReputerLoop S)
    (w : World (Chain S)) h c1 nonce err c2 :
  mustRecalcOpenNonceWindow st = false ->
  mustGetOpenNonce st = true ->
  GetCurrentChainBlockHeight S (chain w) = ((h, None), c1) ->
  BlockIsWithinWindow S (reputerWindow st) h = true ->
  GetLatestOpenWorkerNonceByTopicId S (ReputerTopicId reputer) c1 =
    ((Some nonce, err), c2) ->
  (NonceBlockHeight nonce =? 0) || isErr err = true ->
  reputerIteration S reputer topic st w =
    (Ok (Continue {| latestOpenReputerNonce := Some nonce;
                     mustRecalcOpenNonceWindow := false;
                     mustGetOpenNonce := true;
                     mustRecalcReputerWindow := mustRecalcReputerWindow st;
                     reputerWindow := reputerWindow st |}),
     mkWorld c2
       (trace w ++
        [EvGetCurrentChainBlockHeight (h, None);
         EvGetLatestOpenWorkerNonceByTopicId (ReputerTopicId reputer)
           (Some nonce, err);
         EvPrintln (NonceBlockHeight nonce);
         EvLog LError "Error getting latest open reputer nonce on topic"])).
Proof.
  intros Hflag Hneed Hh Hin Hnonce Hbad.
  unfold reputerIteration, reputerRecalcOpenNonceWindow, reputerGetOpenNonce.
  unfold_m. answer Hh. answer Hflag. answer Hneed. answer Hin.
  answer Hnonce. answer Hbad. by flat_trace.
Qed.

(** How the empty nonce gets past the gate, for any suite: a pass that
    starts with the empty nonce kept from a failed query, at a height
    outside the open-nonce window and inside the reputer window computed
    from block height 0, calls [BuildCommitReputerPayload] with 0. *)
Lemma reputer_stale_nonce_reaches_commit
    (reputer : ReputerConfig) (topic : Topic) (st : ReputerLoop S)
    (w : World (Chain S)) h c1 res c2 :
  latestOpenReputerNonce st = Some {| NonceBlockHeight := 0 |} ->
  mustRecalcOpenNonceWindow st = false ->
  mustRecalcReputerWindow st = true ->
  GetCurrentChainBlockHeight S (chain w) = ((h, None), c1) ->
  BlockIsWithinWindow S (reputerWindow st) h = false ->
  BlockIsWithinReputerWindow S
    (CalcReputerSoonestAnticipatedWindow S (reputerWindow st) topic 0) h = true ->
  BuildCommitReputerPayload S reputer 0 c1 = (res, c2) ->
  EvBuildCommitReputerPayload reputer 0 res
    ∈ trace (reputerIteration S reputer topic st w).2.
Proof.
  intros Hlatest Hflag1 Hflag3 Hh Hout Hin Hcommit.
  unfold reputerIteration, reputerRecalcOpenNonceWindow, reputerGetOpenNonce,
    reputerRecalcReputerWindow, reputerAct.
  unfold_m. answer Hh. answer Hflag1. answer Hout.
  rewrite andb_false_r. answer Hflag3. answer Hlatest. answer Hin.
  answer Hcommit. destruct res as [[|] [e|]]; cbn;
    rewrite !elem_of_app, !list_elem_of_singleton; tauto.
Qed.

(** The worker loop, in the same situation, does wait: the pass ends with
    the short wait within the window and leaves the local state alone. *)
Lemma worker_nonce_failure_backs_off
    (worker : WorkerConfig) (topic : Topic) (currentBlock : BlockHeight)
    (st : WorkerLoop S) (w : World (Chain S)) nonce err c1 :
  BlockIsWithinWindow S (workerWindow st) currentBlock = true ->
  GetLatestOpenWorkerNonceByTopicId S (WorkerTopicId worker) (chain w) =
    ((Some nonce, err), c1) ->
  (NonceBlockHeight nonce =? 0) || isErr err = true ->
  workerAct S worker topic currentBlock st w =
    (Ok (Continue st),
     mkWorld (WaitWithinAnticipatedWindow S c1)
       (trace w ++
        [EvGetLatestOpenWorkerNonceByTopicId (WorkerTopicId worker)
           (Some nonce, err);
         EvLog LError "Error getting latest open worker nonce on topic";
         EvLog LInfo "Got latest open worker nonce";
         EvWaitWithinAnticipatedWindow])).
Proof.
  intros Hin Hnonce Hbad. unfold workerAct. unfold_m.
  answer Hin. answer Hnonce. answer Hbad. by flat_trace.
Qed.

End ReputerNonce.

Lemma reputer_reads_nonce_before_any_fetch_witness :
  BlockIsWithinWindow (simSuite healthy)
    ({| lower := 100; upper := 110 |} : AnticipatedWindow (simSuite healthy)) 95
    = false /\
  runReputerProcess (simSuite healthy) 1 reputer7 (startAt 95) =
    (Panic "invalid memory address or nil pointer dereference",
     mkWorld 96
       [EvLog LDebug "Running reputer process for topic";
        EvGetTopicById 7%N (topic7, None);
        EvRegisterAndStakeReputerIdempotently reputer7 true;
        EvGetCurrentChainBlockHeight (95, None);
        EvCalcWorkerSoonestAnticipatedWindow topic7 95;
        EvLog LDebug "Reputer anticipated window for open nonce for topic"]).
Proof.
  split; [reflexivity|].
  apply (reputer_reads_nonce_before_any_fetch (simSuite healthy) 0 reputer7
           (startAt 95) topic7 95 95 95 96
           ({| lower := 100; upper := 110 |} : AnticipatedWindow (simSuite healthy))
           96 eq_refl eq_refl eq_refl eq_refl eq_refl).
Defined.

Lemma reputer_nonce_failure_does_not_back_off_witness :
  reputerIteration (simSuite nonceless) reputer7 topic7 (reputerPolling nonceless)
    (startAt 109) =
    (Ok (Continue {| latestOpenReputerNonce := Some {| NonceBlockHeight := 0 |};
                     mustRecalcOpenNonceWindow := false;
                     mustGetOpenNonce := true;
                     mustRecalcReputerWindow := true;
                     reputerWindow := reputerWindow (reputerPolling nonceless) |}),
     mkWorld 110
       [EvGetCurrentChainBlockHeight (109, None);
        EvGetLatestOpenWorkerNonceByTopicId 7%N
          (Some {| NonceBlockHeight := 0 |}, None);
        EvPrintln 0;
        EvLog LError "Error getting latest open reputer nonce on topic"]).
Proof.
  apply (reputer_nonce_failure_does_not_back_off (simSuite nonceless) reputer7
           topic7 (reputerPolling nonceless) (startAt 109) 109 110
           {| NonceBlockHeight := 0 |} None 110
           eq_refl eq_refl eq_refl eq_refl eq_refl eq_refl).
Defined.

(** ** Invariants of a loop *)

Lemma forever_invariant {C St : Type} (body : St -> M C (Ctl St))
    (Inv : St -> World C -> Prop) (Good : World C -> Prop) :
  (forall st w, Inv st w -> Good w) ->
  (forall st w, Inv st w ->
     match body st w with
     | (Ok (Continue st'), w') => Inv st' w'
     | (_, w') => Good w'
     end) ->
  forall fuel st w, Inv st w -> Good (forever body fuel st w).2.
Proof.
  intros Hgood Hstep fuel. induction fuel as [|n IH]; intros st w Hinv.
  - simpl. by eapply Hgood.
  - simpl. unfold mbind, M_bind, bind. specialize (Hstep st w Hinv).
    destruct (body st w) as [[[st'|]|msg] w']; simpl; [by apply IH | done | done].
Qed.

Lemma phaseAfter_snoc (tr : list Event) (e : Event) :
  phaseAfter (tr ++ [e]) =
  match phaseAfter tr with Some p => phaseStep p e | None => None end.
Proof. unfold phaseAfter. by rewrite fold_left_app. Qed.

(** ** One successful worker commit per epoch cycle *)

Ltac read_trace :=
  unfold tidyTrace, settledLoop, readyLoop, successHeights;
  cbn [trace chain];
  rewrite ?phaseAfter_snoc, ?fold_left_app.

Section OneCommitPerEpoch.

Context (S : Suite) (topic : Topic).
Context (clock : Chain S -> BlockHeight) (opens : AnticipatedWindow S -> BlockHeight).
Context (contract : WorkerContract S topic clock opens).
Context (epoch_positive : 0 < EpochLength topic).

Local Abbreviation E := (EpochLength topic).

Local Abbreviation tidy := (tidyTrace (Chain S) E).
Local Abbreviation settled := (settledLoop S topic clock).
Local Abbreviation ready := (readyLoop S topic clock).

Lemma settled_tidy st w : settled st w -> tidy w.
Proof.
  intros (Hp & Hnd & _). split; [|done].
  destruct Hp as [->|[-> _]]; eauto.
Qed.

Lemma epochCycle_mono a b : a <= b -> epochCycle E a <= epochCycle E b.
Proof. intros. unfold epochCycle. by apply Z.div_le_mono. Qed.

Lemma epochCycle_next a : epochCycle E (a + E) = epochCycle E a + 1.
Proof.
  unfold epochCycle. replace (a + E) with (a + 1 * E) by lia.
  rewrite Z.div_add by lia. done.
Qed.

Lemma workerRecalc_ready st w h err c1 :
  settled st w ->
  GetCurrentChainBlockHeight S (chain w) = ((h, err), c1) ->
  isErr err = false ->
  exists st1 w1,
    workerRecalc S topic h st
      (mkWorld c1 (trace w ++ [EvGetCurrentChainBlockHeight (h, err)])) =
      (Ok st1, w1) /\
    ready h st1 w1.
Proof.
  intros (Hphase & Hnd & Hbound & Hwin) Hh Herr.
  destruct (height_between _ _ _ _ contract _ _ _ _ Hh Herr) as [Hlo Hhi].
  assert (Hb : forall k, k ∈ epochCycle E <$> successHeights (trace w) ->
                         k < epochCycle E h).
  { intros k Hk. specialize (Hbound k Hk).
    pose proof (epochCycle_mono _ _ Hlo). lia. }
  unfold workerRecalc. unfold_m.
  destruct (mustRecalcWindow st) eqn:Hflag.
  - destruct (CalcWorkerSoonestAnticipatedWindow S (workerWindow st) topic h c1)
      as [win c2] eqn:Hcalc.
    answer Hcalc. eexists _, _. split; [reflexivity|].
    pose proof (calc_forward _ _ _ _ contract _ _ _ _ _ Hcalc) as Hfw.
    unfold readyLoop. cbn [trace chain workerWindow].
    rewrite !phaseAfter_snoc, !fold_left_app. cbn [fold_left noteSuccess].
    split; [by destruct Hphase as [->|[-> _]] |].
    split; [by exists (successHeights (trace w)) |].
    split; [lia|]. eauto.
  - eexists _, _. split; [reflexivity|].
    unfold readyLoop. cbn [trace chain].
    rewrite !phaseAfter_snoc, !fold_left_app. cbn [fold_left noteSuccess].
    destruct Hphase as [->|[_ ?]]; [|congruence].
    split; [done|]. split; [by exists (successHeights (trace w)) |].
    split; [lia|]. by apply Hwin.
Qed.

Lemma workerAct_settled (worker : WorkerConfig) h st w :
  ready h st w ->
  match workerAct S worker topic h st w with
  | (Ok (Continue st'), w') => settled st' w'
  | (_, w') => tidy w'
  end.
Proof.
  intros (Hphase & (succ & Hfold & Hnd & Hbound) & Hclock & Hwin).
  pose proof Hwin as (win0 & cur0 & c0 & c0' & Hcalc).
  assert (Hlater : forall c, h <= clock c ->
            forall k, k ∈ epochCycle E <$> succ -> k < epochCycle E (clock c)).
  { intros c Hc k Hk. specialize (Hbound k Hk).
    pose proof (epochCycle_mono _ _ Hc). lia. }
  unfold workerAct. unfold_m.
  destruct (BlockIsWithinWindow S (workerWindow st) h) eqn:Hin.
  - destruct (GetLatestOpenWorkerNonceByTopicId S (WorkerTopicId worker) (chain w))
      as [[ptr err0] c2] eqn:Hnonce.
    pose proof (nonce_forward _ _ _ _ contract _ _ _ _ Hnonce) as Hfw2.
    destruct ptr as [n|]; cbn.
    + destruct ((NonceBlockHeight n =? 0) || isErr err0) eqn:Hbad; cbn.
      * pose proof (wait_within_forward _ _ _ _ contract c2) as Hfw3.
        read_trace. cbn [fold_left noteSuccess]. rewrite Hphase, Hfold. cbn.
        split; [by left|]. split; [done|].
        split; [apply Hlater; lia | by intros _].
      * destruct (BuildCommitWorkerPayload S worker n c2)
          as [[success err1] c3] eqn:Hcommit.
        pose proof (commit_forward _ _ _ _ contract _ _ _ _ _ Hcommit) as Hfw3.
        destruct success, (isErr err1); cbn.
        all: read_trace; cbn [fold_left noteSuccess]; rewrite Hphase, Hfold; cbn.
        all: try (pose proof (wait_within_forward _ _ _ _ contract c3) as Hfw4;
                  split; [by left|]; split; [done|];
                  split; [apply Hlater; lia | by intros _]).
        all: destruct (window_in_one_cycle _ _ _ _ contract _ _ _ _ _ _ Hcalc Hin)
               as [Hopen Hcycle].
        all: pose proof (wait_not_early _ _ _ _ contract _ _ _ _ _ h c3 Hcalc Hopen)
               as Hwait.
        all: assert (Hnext : epochCycle E h <
                             epochCycle E
                               (clock (WaitForNextAnticipatedWindowToStart S
                                         (workerWindow st) h E c3)))
               by (pose proof (epochCycle_mono _ _ Hwait) as Hm;
                   rewrite epochCycle_next in Hm; lia).
        all: split; [by right|]; rewrite fmap_app; cbn.
        all: split; [apply NoDup_app; split; [done|]; split;
                       [intros k Hk ->%list_elem_of_singleton;
                        specialize (Hbound _ Hk); lia
                       | apply NoDup_singleton] |].
        all: split; [|done].
        all: intros k [Hk| ->%list_elem_of_singleton]%elem_of_app;
               [specialize (Hbound _ Hk); lia | done].
    + read_trace. rewrite Hphase, Hfold. cbn. split; eauto.
  - cbn.
    pose proof (wait_next_forward _ _ _ _ contract (workerWindow st) h (chain w))
      as Hfw2.
    read_trace. cbn [fold_left noteSuccess]. rewrite Hphase, Hfold. cbn.
    split; [by left|]. split; [done|].
    split; [apply Hlater; lia | by intros _].
Qed.

Lemma workerIteration_settled (worker : WorkerConfig) st w :
  settled st w ->
  match workerIteration S worker topic st w with
  | (Ok (Continue st'), w') => settled st' w'
  | (_, w') => tidy w'
  end.
Proof.
  intros Hst. unfold workerIteration.
  unfold mbind at 1, M_bind at 1, bind at 1.
  unfold getCurrentChainBlockHeight, call.
  destruct (GetCurrentChainBlockHeight S (chain w)) as [[h err] c1] eqn:Hh.
  destruct (isErr err) eqn:Herr.
  - unfold_m. cbn. destruct Hst as (Hphase & Hnd & _).
    read_trace. cbn [fold_left noteSuccess].
    split; [by destruct Hphase as [->|[-> _]]; eauto | done].
  - destruct (workerRecalc_ready st w h err c1 Hst Hh Herr)
      as (st1 & w1 & Hrecalc & Hready).
    unfold mbind at 1, M_bind at 1, bind at 1. rewrite Hrecalc.
    by apply workerAct_settled.
Qed.


End OneCommitPerEpoch.

(** The simulated chain meets the contract: its clock is the outside state
    itself and a window opens at its lower bound. *)
Lemma healthy_contract :
  WorkerContract (simSuite healthy) topic7 (fun height => height) lower.
Proof.
  constructor; cbn.
  - intros c h err c' [= <- _ <-] _. lia.
  - intros win0 cur c win c' [= _ <-]. lia.
  - intros t c r c' [= _ <-]. lia.
  - intros worker n c r c' [= _ <-]. lia.
  - intros c. lia.
  - intros win cur c. unfold simWaitNext. lia.
  - intros win0 cur0 c0 win c0' h [= <- _]. unfold simCalcWorker, simWithin, epochCycle.
    cbn. intros [Hlo Hhi]%andb_prop. apply Z.leb_le in Hlo, Hhi.
    set (q := cur0 / 100) in *.
    destruct (cur0 <=? 100 * q + 10); cbn in *.
    + split; [done|]. rewrite (Z.mul_comm 100 q), Z.div_mul by lia.
      symmetry. apply (Z.div_unique h 100 q (h - 100 * q)); lia.
    + split; [done|].
      replace (100 * q + 100) with ((q + 1) * 100) in * by lia.
      rewrite Z.div_mul by lia.
      symmetry. apply (Z.div_unique h 100 (q + 1) (h - (q + 1) * 100)); lia.
  - intros win0 cur0 c0 win c0' cur c _ Hopen. unfold simWaitNext.
    destruct (cur <? lower win) eqn:Hlt; [apply Z.ltb_lt in Hlt|]; lia.
Qed.


(** ** Whole runs of [Spawn] on the simulated chain *)

(** When every height query fails, each started loop returns on its first
    pass and [wg.Wait] can return: three tasks were started, none is left. *)
Example SpawnAndRun_heightless :
  match SpawnAndRun (simSuite heightless) crowdedNode 40 [0; 1; 2; 0; 1; 2]%nat with
  | SysOk s => (length (procs s) =? 3)%nat && allExited (procs s)
  | SysCrashed _ _ => false
  end = true.
Proof. vm_compute. reflexivity. Qed.

(** On a healthy chain at height 95 the reputer task reads the [nil] nonce
    on its first pass; the panic ends the process, worker tasks included. *)
Example SpawnAndRun_reputer_panics :
  match SpawnAndRun (simSuite healthy) crowdedNode 95 [0; 1; 2; 2]%nat with
  | SysOk _ => false
  | SysCrashed msg _ =>
      bool_decide (msg = "invalid memory address or nil pointer dereference")
  end = true.
Proof. vm_compute. reflexivity. Qed.

(** * Further properties of the loops *)

(** ** Proof tools for one pass *)

(** Case analysis on the answers of the collaborators met along a pass. *)
Ltac split_answers :=
  repeat
    (cbn [chain trace fst snd] in *;
     match goal with
     | |- context [GetCurrentChainBlockHeight ?S ?c] =>
         destruct (GetCurrentChainBlockHeight S c) as [[? [?|]] ?] eqn:?
     | |- context [CalcWorkerSoonestAnticipatedWindow ?S ?a ?b ?c ?d] =>
         destruct (CalcWorkerSoonestAnticipatedWindow S a b c d) as [? ?] eqn:?
     | |- context [GetLatestOpenWorkerNonceByTopicId ?S ?t ?c] =>
         destruct (GetLatestOpenWorkerNonceByTopicId S t c) as [[[[?]|] [?|]] ?] eqn:?
     | |- context [BuildCommitWorkerPayload ?S ?a ?b ?c] =>
         destruct (BuildCommitWorkerPayload S a b c) as [[[|] [?|]] ?] eqn:?
     | |- context [BuildCommitReputerPayload ?S ?a ?b ?c] =>
         destruct (BuildCommitReputerPayload S a b c) as [[[|] [?|]] ?] eqn:?
     | |- context [BlockIsWithinWindow ?S ?a ?b] =>
         destruct (BlockIsWithinWindow S a b) eqn:?
     | |- context [BlockIsWithinReputerWindow ?S ?a ?b] =>
         destruct (BlockIsWithinReputerWindow S a b) eqn:?
     | |- context [Z.eqb ?a 0] => destruct (Z.eqb a 0) eqn:?
     end; cbn in *).

Ltac worker_pass :=
  unfold workerIteration, workerRecalc, workerAct; unfold_m.

Ltac reputer_pass :=
  unfold reputerIteration, reputerRecalcOpenNonceWindow, reputerGetOpenNonce,
    reputerRecalcReputerWindow, reputerAct; unfold_m.

Section WorkerPass.

Context (S : Suite).

(** X5. A pass of the worker loop that goes on to the next pass ends with
    a wait, the short one within the window or the one for the next
    window: the worker loop never polls the chain twice without waiting. *)
Lemma workerIteration_ends_with_wait (worker : WorkerConfig) (topic : Topic)
    (st : WorkerLoop S) (w : World (Chain S)) :
  match workerIteration S worker topic st w with
  | (Ok (Continue _), w') =>
      exists e, last (trace w') = Some e /\ isWait e = true
  | _ => True
  end.
Proof.
  worker_pass. destruct st as [[|] win]; split_answers.
  all: try done.
  all: rewrite last_snoc; by eexists.
Qed.

(** X6. In a pass of the worker loop the window is recomputed exactly when
    it was marked stale, it is marked stale at the end exactly when a
    commit succeeded in the pass, and a window that was not stale is left
    as it was. *)
Lemma workerIteration_window_and_flag (worker : WorkerConfig) (topic : Topic)
    (st : WorkerLoop S) (w : World (Chain S)) :
  match workerIteration S worker topic st w with
  | (Ok (Continue st'), w') =>
      exists evs,
        trace w' = trace w ++ evs /\
        existsb isCalcWorker evs = mustRecalcWindow st /\
        mustRecalcWindow st' = existsb isWorkerSuccess evs /\
        (mustRecalcWindow st = false -> workerWindow st' = workerWindow st)
  | _ => True
  end.
Proof.
  worker_pass. destruct st as [[|] win]; split_answers.
  all: try done.
  all: flat_trace; eexists; split; [reflexivity|]; cbn; done.
Qed.

(** How a pass can end the loop: by a return after a failed height query,
    or by a panic on a nonce query answered by a [nil] pointer. *)
Lemma workerIteration_exits (worker : WorkerConfig) (topic : Topic)
    (st : WorkerLoop S) (w : World (Chain S)) :
  match workerIteration S worker topic st w with
  | (Ok (Continue _), _) => True
  | (Ok Return, w') =>
      exists pre e line,
        trace w' = pre ++ [e; EvLog LError line] /\ isFatalAnswer e = true
  | (Panic _, w') =>
      exists pre e, trace w' = pre ++ [e] /\ isNilNonceAnswer e = true
  end.
Proof.
  worker_pass. destruct st as [[|] win]; split_answers.
  all: try done.
  all: try (rewrite <- app_assoc; by eexists _, _, _).
  all: by eexists _, _.
Qed.

End WorkerPass.

(** ** How a loop can end *)

Lemma forever_outcome {C St : Type} (body : St -> M C (Ctl St))
    (Inv : St -> World C -> Prop) (R Q : World C -> Prop) :
  (forall st w, Inv st w ->
     match body st w with
     | (Ok (Continue st'), w') => Inv st' w'
     | (Ok Return, w') => R w'
     | (Panic _, w') => Q w'
     end) ->
  forall fuel st w, Inv st w ->
    match forever body fuel st w with
    | (Ok (Running st'), w') => Inv st' w'
    | (Ok Returned, w') => R w'
    | (Panic _, w') => Q w'
    end.
Proof.
  intros Hbody fuel. induction fuel as [|n IH]; intros st w Hinv; [done|].
  cbn [forever]. unfold mbind, M_bind, bind.
  specialize (Hbody st w Hinv).
  destruct (body st w) as [[[st'|]|msg] w']; [by apply IH | done | done].
Qed.

Section WorkerExits.

Context (S : Suite).

(** X1. A worker run that has returned ends on an error line that follows
    the fatal answer (failed topic query, refused registration, failed
    height query); a worker run that has panicked ends on a nonce query
    answered by a [nil] pointer. There is no other way out. *)
Theorem runWorkerProcess_exits
    (fuel : nat) (worker : WorkerConfig) (w : World (Chain S)) :
  match runWorkerProcess S fuel worker w with
  | (Ok (Running _), _) => True
  | (Ok Returned, w') =>
      exists pre e line,
        trace w' = pre ++ [e; EvLog LError line] /\ isFatalAnswer e = true
  | (Panic _, w') =>
      exists pre e, trace w' = pre ++ [e] /\ isNilNonceAnswer e = true
  end.
Proof.
  unfold runWorkerProcess, workerStart.
  unfold mbind at 1, M_bind at 1, bind at 1. unfold_m. cbn [chain trace].
  destruct (GetTopicById S (WorkerTopicId worker) (chain w))
    as [[topic [err|]] c1]; cbn.
  { rewrite <- app_assoc. by eexists _, _, _. }
  destruct (RegisterWorkerIdempotently S worker c1) as [[|] c2]; cbn.
  2: { rewrite <- app_assoc. by eexists _, _, _. }
  pose proof (forever_outcome (workerIteration S worker topic)
                (fun _ _ => True) _ _
                (fun st w _ => workerIteration_exits S worker topic st w)
                fuel (workerInit S)
                (mkWorld c2
                   (((trace w ++ [EvLog LInfo "Running worker process for topic"]) ++
                     [EvGetTopicById (WorkerTopicId worker) (topic, None)]) ++
                    [EvRegisterWorkerIdempotently worker true])) I) as Hout.
  by destruct (forever _ _ _ _) as [[[|]|] w'].
Qed.

(** X2. On a chain whose height queries never fail and whose nonce queries
    never answer [nil], a worker that got its topic and its registration
    never leaves its loop: whatever the number of passes observed, it is
    still running. *)
Theorem worker_runs_forever
    (worker : WorkerConfig) (w : World (Chain S)) topic c1 c2 :
  (forall c, isErr (GetCurrentChainBlockHeight S c).1.2 = false) ->
  (forall t c, (GetLatestOpenWorkerNonceByTopicId S t c).1.1 <> None) ->
  GetTopicById S (WorkerTopicId worker) (chain w) = ((topic, None), c1) ->
  RegisterWorkerIdempotently S worker c1 = (true, c2) ->
  forall fuel, exists st, (runWorkerProcess S fuel worker w).1 = Ok (Running st).
Proof.
  intros Hheight Hnonce Htopic Hreg fuel.
  unfold runWorkerProcess, workerStart.
  unfold mbind at 1, M_bind at 1, bind at 1. unfold_m.
  answer Htopic. answer Hreg.
  match goal with
  | |- context [forever ?b ?f ?s ?x] =>
      pose proof (forever_outcome b (fun _ _ => True)
                    (fun _ => False) (fun _ => False)) as Hout;
      specialize (fun H => Hout H f s x I)
  end.
  match type of Hout with
  | ?A -> _ => assert (Hpass : A); [|specialize (Hout Hpass)]
  end.
  { intros st w0 _. worker_pass. destruct st as [[|] win]; split_answers.
    all: try done.
    all: try match goal with
             | H : GetCurrentChainBlockHeight _ ?c = _ |- _ =>
                 pose proof (Hheight c) as X; rewrite H in X; done
             end.
    all: match goal with
         | H : GetLatestOpenWorkerNonceByTopicId _ ?t ?c = _ |- _ =>
             pose proof (Hnonce t c) as X; rewrite H in X; done
         end. }
  destruct (forever _ _ _ _) as [[[|st]|msg] w']; try done. by exists st.
Qed.

End WorkerExits.

(** ** Passes of the reputer loop *)

Section ReputerPass.

Context (S : Suite).

(** X8. In a pass of the reputer loop the open-nonce window is recomputed
    exactly when it was marked stale; at the end it is marked stale exactly
    when a commit succeeded in the pass, and then the two other flags are
    set too; the nonce is queried only when [mustGetOpenNonce] was set, and
    a pass without a query leaves the stored nonce as it was. *)
Lemma reputerIteration_flags (reputer : ReputerConfig) (topic : Topic)
    (st : ReputerLoop S) (w : World (Chain S)) :
  match reputerIteration S reputer topic st w with
  | (Ok (Continue st'), w') =>
      exists evs,
        trace w' = trace w ++ evs /\
        existsb isCalcWorker evs = mustRecalcOpenNonceWindow st /\
        mustRecalcOpenNonceWindow st' = existsb isReputerSuccess evs /\
        (existsb isReputerSuccess evs = true ->
         mustGetOpenNonce st' = true /\ mustRecalcReputerWindow st' = true) /\
        (existsb isNonceQuery evs = true -> mustGetOpenNonce st = true) /\
        (existsb isNonceQuery evs = false ->
         latestOpenReputerNonce st' = latestOpenReputerNonce st)
  | _ => True
  end.
Proof.
  reputer_pass. destruct st as [[[n]|] [|] [|] [|] win]; split_answers.
  all: try done.
  all: flat_trace; eexists; split; [reflexivity|]; cbn; by repeat split.
Qed.

(** X9. Within one pass the gate of lines 145-154 works: there is at most one
    nonce query and one commit, and a commit made in a pass that queried
    the nonce uses the height just answered, which is not 0 and came
    without error. *)
Lemma reputerIteration_gate (reputer : ReputerConfig) (topic : Topic)
    (st : ReputerLoop S) (w : World (Chain S)) :
  exists evs,
    trace (reputerIteration S reputer topic st w).2 = trace w ++ evs /\
    (length (nonceAnswers evs) <= 1)%nat /\
    (length (reputerCommitHeights evs) <= 1)%nat /\
    forall ans h,
      ans ∈ nonceAnswers evs -> h ∈ reputerCommitHeights evs ->
      h <> 0 /\ ans = (Some {| NonceBlockHeight := h |}, None).
Proof.
  reputer_pass. destruct st as [[[n]|] [|] [|] [|] win]; split_answers.
  all: flat_trace; eexists; (split; [reflexivity|]); cbn.
  all: split; [lia|]; split; [lia|]; intros ans h Hans Hh.
  all: try (by apply elem_of_nil in Hans).
  all: try (by apply elem_of_nil in Hh).
  all: apply list_elem_of_singleton in Hans, Hh; subst.
  all: split; [by apply Z.eqb_neq | done].
Qed.

End ReputerPass.

(** ** Proof tools for whole runs *)

Lemma countEvents_app (p : Event -> bool) (l1 l2 : list Event) :
  countEvents p (l1 ++ l2) = (countEvents p l1 + countEvents p l2)%nat.
Proof. unfold countEvents. by rewrite List.filter_app, length_app. Qed.

Lemma countEvents_none (p : Event -> bool) (l : list Event) :
  Forall (fun e => p e = false) l -> countEvents p l = 0%nat.
Proof.
  unfold countEvents. induction 1 as [|e l He _ IH]; [done|].
  cbn. by rewrite He.
Qed.

Lemma appends_forever {C St : Type} (P : Event -> Prop)
    (body : St -> M C (Ctl St)) :
  (forall st, appends P (body st)) ->
  forall fuel st, appends P (forever body fuel st).
Proof.
  intros Hbody fuel. induction fuel as [|n IH]; intros st w.
  - exists []. by rewrite app_nil_r.
  - cbn [forever]. unfold mbind, M_bind, bind.
    destruct (Hbody st w) as (evs & Hevs & HP).
    destruct (body st w) as [[[st'|]|msg] w']; cbn in *.
    + destruct (IH st' w') as (evs' & Hevs' & HP').
      exists (evs ++ evs'). rewrite Hevs', Hevs, app_assoc.
      split; [done | by apply Forall_app].
    + by exists evs.
    + by exists evs.
Qed.


(** ** A worker commit uses the nonce just fetched *)

Section WorkerFresh.

Context (S : Suite).

Lemma workerIteration_fresh (worker : WorkerConfig) (topic : Topic)
    (st : WorkerLoop S) (w : World (Chain S)) :
  commitsAreFresh (trace w) ->
  commitsAreFresh (trace (workerIteration S worker topic st w).2).
Proof.
  intros [last Hlast]. unfold commitsAreFresh.
  worker_pass. destruct st as [[|] win]; split_answers.
  all: rewrite !fold_left_app, Hlast; cbn.
  all: repeat match goal with
              | H : (_ =? 0) = _ |- context [_ =? 0] => rewrite H
              end; cbn.
  all: try rewrite decide_True by done.
  all: by eexists.
Qed.

(** X3. Every commit attempt of a worker run is made with the nonce that
    the last nonce query answered, after the height was last read: a valid
    answer (a block height other than 0, no error), used for one attempt
    only. *)
Theorem worker_commits_are_fresh
    (fuel : nat) (worker : WorkerConfig) (w : World (Chain S)) :
  commitsAreFresh (trace w) ->
  commitsAreFresh (trace (runWorkerProcess S fuel worker w).2).
Proof.
  intros [last Hlast].
  unfold runWorkerProcess, workerStart.
  unfold mbind at 1, M_bind at 1, bind at 1. unfold_m. cbn [chain trace].
  destruct (GetTopicById S (WorkerTopicId worker) (chain w))
    as [[topic [err|]] c1]; cbn.
  { unfold commitsAreFresh. rewrite !fold_left_app, Hlast. by eexists. }
  destruct (RegisterWorkerIdempotently S worker c1) as [[|] c2]; cbn.
  2: { unfold commitsAreFresh. rewrite !fold_left_app, Hlast. by eexists. }
  apply (forever_invariant _ (fun _ w => commitsAreFresh (trace w))
           (fun w => commitsAreFresh (trace w))); [done | |].
  - intros st w0 Hw0.
    pose proof (workerIteration_fresh worker topic st w0 Hw0) as Hpass.
    by destruct (workerIteration S worker topic st w0) as [[[?|]|?] ?].
  - unfold commitsAreFresh. cbn. rewrite !fold_left_app, Hlast. by eexists.
Qed.

Lemma workerIteration_ownCommits (worker : WorkerConfig) (topic : Topic)
    (st : WorkerLoop S) :
  appends (ownOpenCommit worker) (workerIteration S worker topic st).
Proof.
  intros w. worker_pass. destruct st as [[|] win]; split_answers.
  all: flat_trace; eexists; (split; [reflexivity|]).
  all: repeat constructor; try done.
  all: by apply Z.eqb_neq.
Qed.

(** X4. The only payloads a worker run commits are worker payloads, built
    for the configuration the loop was started with and for a nonce whose
    block height is not 0. *)
Theorem worker_commits_its_own_open_nonces
    (fuel : nat) (worker : WorkerConfig) (w : World (Chain S)) :
  exists evs,
    trace (runWorkerProcess S fuel worker w).2 = trace w ++ evs /\
    Forall (ownOpenCommit worker) evs.
Proof.
  unfold runWorkerProcess, workerStart.
  unfold mbind at 1, M_bind at 1, bind at 1. unfold_m. cbn [chain trace].
  destruct (GetTopicById S (WorkerTopicId worker) (chain w))
    as [[topic [err|]] c1]; cbn.
  { flat_trace. eexists. split; [reflexivity | by repeat constructor]. }
  destruct (RegisterWorkerIdempotently S worker c1) as [[|] c2]; cbn.
  2: { flat_trace. eexists. split; [reflexivity | by repeat constructor]. }
  match goal with
  | |- context [forever ?b ?f ?s ?x] =>
      destruct (appends_forever (ownOpenCommit worker) b
                  (workerIteration_ownCommits worker topic) f s x)
        as (evs & -> & Hevs)
  end.
  cbn. flat_trace. eexists. split; [reflexivity|].
  by repeat (constructor; [done|]).
Qed.

End WorkerFresh.

(** ** The start-up calls are made once *)

Section StartupOnce.

Context (S : Suite).

Local Abbreviation notStartup :=
  (fun e : Event => isTopicQuery e = false /\ isRegistration e = false).

Lemma workerIteration_notStartup (worker : WorkerConfig) (topic : Topic)
    (st : WorkerLoop S) :
  appends notStartup (workerIteration S worker topic st).
Proof.
  intros w. worker_pass. destruct st as [[|] win]; split_answers.
  all: flat_trace; eexists; (split; [reflexivity|]); by repeat constructor.
Qed.

Lemma reputerIteration_notStartup (reputer : ReputerConfig) (topic : Topic)
    (st : ReputerLoop S) :
  appends notStartup (reputerIteration S reputer topic st).
Proof.
  intros w. reputer_pass. destruct st as [[[n]|] [|] [|] [|] win]; split_answers.
  all: flat_trace; eexists; (split; [reflexivity|]); by repeat constructor.
Qed.

(** X7. A run of either loop queries the topic exactly once and registers
    at most once, whatever the number of passes: the loop bodies never call
    [GetTopicById] or the registration again. *)
Theorem startup_calls_are_made_once
    (fuel : nat) (worker : WorkerConfig) (reputer : ReputerConfig)
    (w : World (Chain S)) :
  (exists evs,
      trace (runWorkerProcess S fuel worker w).2 = trace w ++ evs /\
      countEvents isTopicQuery evs = 1%nat /\
      (countEvents isRegistration evs <= 1)%nat) /\
  (exists evs,
      trace (runReputerProcess S fuel reputer w).2 = trace w ++ evs /\
      countEvents isTopicQuery evs = 1%nat /\
      (countEvents isRegistration evs <= 1)%nat).
Proof.
  split.
  - unfold runWorkerProcess, workerStart.
    unfold mbind at 1, M_bind at 1, bind at 1. unfold_m. cbn [chain trace].
    destruct (GetTopicById S (WorkerTopicId worker) (chain w))
      as [[topic [err|]] c1]; cbn.
    { flat_trace. eexists. split; [reflexivity|]. cbn. lia. }
    destruct (RegisterWorkerIdempotently S worker c1) as [[|] c2]; cbn.
    2: { flat_trace. eexists. split; [reflexivity|]. cbn. lia. }
    match goal with
    | |- context [forever ?b ?f ?s ?x] =>
        destruct (appends_forever notStartup b
                    (workerIteration_notStartup worker topic) f s x)
          as (evs & -> & Hevs)
    end.
    cbn. flat_trace. eexists. split; [reflexivity|].
    change (?a :: ?b :: ?c :: evs) with ([a; b; c] ++ evs).
    rewrite !countEvents_app.
    rewrite (countEvents_none isTopicQuery evs),
      (countEvents_none isRegistration evs); [cbn; lia | | ].
    + eapply Forall_impl; [exact Hevs|]. by intros e [_ ?].
    + eapply Forall_impl; [exact Hevs|]. by intros e [? _].
  - unfold runReputerProcess, reputerStart.
    unfold mbind at 1, M_bind at 1, bind at 1. unfold_m. cbn [chain trace].
    destruct (GetTopicById S (ReputerTopicId reputer) (chain w))
      as [[topic [err|]] c1]; cbn.
    { flat_trace. eexists. split; [reflexivity|]. cbn. lia. }
    destruct (RegisterAndStakeReputerIdempotently S reputer c1) as [[|] c2]; cbn.
    2: { flat_trace. eexists. split; [reflexivity|]. cbn. lia. }
    match goal with
    | |- context [forever ?b ?f ?s ?x] =>
        destruct (appends_forever notStartup b
                    (reputerIteration_notStartup reputer topic) f s x)
          as (evs & -> & Hevs)
    end.
    cbn. flat_trace. eexists. split; [reflexivity|].
    change (?a :: ?b :: ?c :: evs) with ([a; b; c] ++ evs).
    rewrite !countEvents_app.
    rewrite (countEvents_none isTopicQuery evs),
      (countEvents_none isRegistration evs); [cbn; lia | | ].
    + eapply Forall_impl; [exact Hevs|]. by intros e [_ ?].
    + eapply Forall_impl; [exact Hevs|]. by intros e [? _].
Qed.

End StartupOnce.

(** ** Panics of the reputer loop *)

Section ReputerPanics.

Context (S : Suite).
Context (nonce_not_nil :
           forall t c, (GetLatestOpenWorkerNonceByTopicId S t c).1.1 <> None).

Ltac no_nil_answer :=
  match goal with
  | H : GetLatestOpenWorkerNonceByTopicId _ ?t ?c = _ |- _ =>
      pose proof (nonce_not_nil t c) as X; rewrite H in X; done
  end.

(** Once a nonce is stored, a pass keeps one stored and does not panic. *)
Lemma reputerIteration_keeps_nonce (reputer : ReputerConfig) (topic : Topic)
    (st : ReputerLoop S) (w : World (Chain S)) :
  latestOpenReputerNonce st <> None ->
  match reputerIteration S reputer topic st w with
  | (Ok (Continue st'), _) => latestOpenReputerNonce st' <> None
  | (Ok Return, _) => True
  | (Panic _, _) => False
  end.
Proof.
  intros Hstored. reputer_pass.
  destruct st as [[[n]|] f1 f2 f3 win]; cbn in Hstored; [|done].
  destruct f1, f2, f3; split_answers.
  all: try done.
  all: no_nil_answer.
Qed.

(** X10. On a chain whose nonce queries never answer [nil], a reputer whose
    first height is inside the first open-nonce window never panics,
    whatever the number of passes. *)
Theorem reputer_started_in_window_never_panics
    (reputer : ReputerConfig) (w : World (Chain S))
    topic c1 c2 h c3 win c4 :
  GetTopicById S (ReputerTopicId reputer) (chain w) = ((topic, None), c1) ->
  RegisterAndStakeReputerIdempotently S reputer c1 = (true, c2) ->
  GetCurrentChainBlockHeight S c2 = ((h, None), c3) ->
  CalcWorkerSoonestAnticipatedWindow S (zeroWindow S) topic h c3 = (win, c4) ->
  BlockIsWithinWindow S win h = true ->
  forall fuel,
    match (runReputerProcess S fuel reputer w).1 with
    | Panic _ => False
    | Ok _ => True
    end.
Proof.
  intros Htopic Hreg Hh Hcalc Hin fuel.
  unfold runReputerProcess, reputerStart.
  unfold mbind at 1, M_bind at 1, bind at 1. unfold_m.
  answer Htopic. answer Hreg.
  destruct fuel as [|fuel]; [done|].
  cbn [forever]. unfold mbind at 1, M_bind at 1, bind at 1.
  match goal with
  | |- context [reputerIteration S reputer topic ?s ?x] =>
      assert (Hfirst :
                match reputerIteration S reputer topic s x with
                | (Ok (Continue st'), _) => latestOpenReputerNonce st' <> None
                | (Ok Return, _) => True
                | (Panic _, _) => False
                end);
      [|destruct (reputerIteration S reputer topic s x) as [[[st'|]|msg] w']]
  end.
  { reputer_pass. unfold reputerInit. answer Hh. answer Hcalc. answer Hin.
    split_answers. all: try done. all: no_nil_answer. }
  - pose proof (forever_outcome (reputerIteration S reputer topic)
                  (fun st _ => latestOpenReputerNonce st <> None)
                  (fun _ => True) (fun _ => False)
                  (fun st w0 Hst => reputerIteration_keeps_nonce reputer topic st w0 Hst)
                  fuel st' w' Hfirst) as Hout.
    by destruct (forever _ _ _ _) as [[[|]|] ?].
  - done.
  - done.
Qed.

End ReputerPanics.

Section ReputerExits.

Context (S : Suite).

Local Abbreviation unread :=
  (fun (st : ReputerLoop S) (w : World (Chain S)) =>
     latestOpenReputerNonce st = None -> countEvents isNonceQuery (trace w) = 0%nat).

Lemma reputerIteration_exits (reputer : ReputerConfig) (topic : Topic)
    (st : ReputerLoop S) (w : World (Chain S)) :
  unread st w ->
  match reputerIteration S reputer topic st w with
  | (Ok (Continue st'), w') => unread st' w'
  | (Ok Return, w') =>
      exists pre e line,
        trace w' = pre ++ [e; EvLog LError line] /\ isFatalAnswer e = true
  | (Panic _, w') =>
      (exists pre e, trace w' = pre ++ [e] /\ isNilNonceAnswer e = true) \/
      countEvents isNonceQuery (trace w') = 0%nat
  end.
Proof.
  intros Hunread. reputer_pass.
  destruct st as [[[n]|] [|] [|] [|] win]; split_answers.
  all: try done.
  all: try (rewrite <- app_assoc; by eexists _, _, _).
  all: try (left; by eexists _, _).
  all: right;
       change (length (List.filter isNonceQuery ?l)) with (countEvents isNonceQuery l);
       rewrite !countEvents_app, Hunread by done; done.
Qed.

(** X11. A reputer run that has returned ends on an error line that
    follows the fatal answer; a reputer run that has panicked either ends
    on a nonce query answered by a [nil] pointer, or has made no nonce
    query at all: it read the nonce it never fetched. *)
Theorem runReputerProcess_exits
    (fuel : nat) (reputer : ReputerConfig) (w : World (Chain S)) :
  countEvents isNonceQuery (trace w) = 0%nat ->
  match runReputerProcess S fuel reputer w with
  | (Ok (Running _), _) => True
  | (Ok Returned, w') =>
      exists pre e line,
        trace w' = pre ++ [e; EvLog LError line] /\ isFatalAnswer e = true
  | (Panic _, w') =>
      (exists pre e, trace w' = pre ++ [e] /\ isNilNonceAnswer e = true) \/
      countEvents isNonceQuery (trace w') = 0%nat
  end.
Proof.
  intros Hfresh.
  unfold runReputerProcess, reputerStart.
  unfold mbind at 1, M_bind at 1, bind at 1. unfold_m. cbn [chain trace].
  destruct (GetTopicById S (ReputerTopicId reputer) (chain w))
    as [[topic [err|]] c1]; cbn.
  { rewrite <- app_assoc. by eexists _, _, _. }
  destruct (RegisterAndStakeReputerIdempotently S reputer c1) as [[|] c2]; cbn.
  2: { rewrite <- app_assoc. by eexists _, _, _. }
  match goal with
  | |- context [forever ?b ?f ?s ?x] =>
      pose proof (forever_outcome b unread _ _
                    (reputerIteration_exits reputer topic) f s x) as Hout
  end.
  cbn beta in Hout. cbn [trace] in Hout.
  rewrite !countEvents_app, Hfresh in Hout.
  specialize (Hout (fun _ => eq_refl)).
  by destruct (forever _ _ _ _) as [[[|]|] w'].
Qed.

End ReputerExits.

(** ** More on the dispatcher *)

Section DedupMore.

Context {A : Type} (key : A -> TopicId) (line : string).

(** The launched configurations come in the order of the list. *)
Lemma spawnEach_sublist (cfgs : list A) (m : gmap TopicId bool) :
  (spawnEach key line cfgs m).2 `sublist_of` cfgs.
Proof.
  revert m. induction cfgs as [|c rest IH]; intros m; [done|].
  rewrite spawnEach_cons. destruct (m !! key c); cbn [snd].
  - apply sublist_cons, IH.
  - apply sublist_skip, IH.
Qed.

(** Configurations with pairwise distinct ids, none started before, are
    all launched and no diagnostic is written. *)
Lemma spawnEach_distinct (cfgs : list A) (m : gmap TopicId bool) :
  NoDup (key <$> cfgs) ->
  (forall c, c ∈ cfgs -> m !! key c = None) ->
  spawnEach key line cfgs m = ([], cfgs).
Proof.
  revert m. induction cfgs as [|c rest IH]; intros m Hnd Hnew; [done|].
  rewrite fmap_cons in Hnd. apply NoDup_cons in Hnd as [Hc Hnd].
  rewrite spawnEach_cons, (Hnew c) by apply list_elem_of_here.
  rewrite IH; [done | done |].
  intros c' Hc'. rewrite lookup_insert_ne.
  - apply Hnew. by apply list_elem_of_further.
  - intros Heq. apply Hc. rewrite Heq. by apply list_elem_of_fmap_2.
Qed.

(** Configurations whose ids were all started before launch nothing. *)
Lemma spawnEach_all_started (cfgs : list A) (m : gmap TopicId bool) :
  (forall c, c ∈ cfgs -> is_Some (m !! key c)) ->
  spawnEach key line cfgs m =
    (replicate (length cfgs) (EvLog LDebug line), []).
Proof.
  induction cfgs as [|c rest IH]; intros Hold; [done|].
  rewrite spawnEach_cons.
  destruct (Hold c) as [b ->]; [apply list_elem_of_here|].
  rewrite IH; [done|]. intros c' Hc'. apply Hold. by apply list_elem_of_further.
Qed.

(** Configurations added after the list, for ids the list already has or
    that were started before, change the diagnostics only. *)
Lemma spawnEach_repeats (cfgs extra : list A) (m : gmap TopicId bool) :
  (forall c, c ∈ extra -> key c ∈ key <$> cfgs \/ is_Some (m !! key c)) ->
  spawnEach key line (cfgs ++ extra) m =
    ((spawnEach key line cfgs m).1 ++
     replicate (length extra) (EvLog LDebug line),
     (spawnEach key line cfgs m).2).
Proof.
  revert m. induction cfgs as [|c rest IH]; intros m Hextra.
  - cbn [app]. rewrite spawnEach_all_started; [done|].
    intros c Hc. destruct (Hextra c Hc) as [Hin|?]; [|done].
    by apply elem_of_nil in Hin.
  - rewrite <- app_comm_cons, !spawnEach_cons.
    destruct (m !! key c) as [b|] eqn:Hm.
    + rewrite IH; [done|]. intros c' Hc'.
      destruct (Hextra c' Hc') as [Hin|?]; [|by right].
      rewrite fmap_cons in Hin. apply elem_of_cons in Hin as [Heq|?]; [|by left].
      right. rewrite Heq, Hm. by eexists.
    + rewrite IH; [done|]. intros c' Hc'.
      destruct (Hextra c' Hc') as [Hin|Hsome].
      * rewrite fmap_cons in Hin. apply elem_of_cons in Hin as [Heq|?]; [|by left].
        right. rewrite Heq, lookup_insert_eq. by eexists.
      * right. destruct (decide (key c = key c')) as [->|Hne].
        -- rewrite lookup_insert_eq. by eexists.
        -- by rewrite lookup_insert_ne.
Qed.

End DedupMore.

(** X12. The tasks [Spawn] starts are the workers, then the reputers, each
    role in the order of its configuration list. *)
Theorem Spawn_keeps_order (S : Suite) (node : NodeConfig) :
  exists (ws : list WorkerConfig) (rs : list ReputerConfig),
    (Spawn S node).2 = (WorkerLaunched <$> ws) ++ (ReputerLaunched <$> rs) /\
    ws `sublist_of` Worker node /\
    rs `sublist_of` Reputer node.
Proof.
  exists (spawnWorkers (Worker node) ∅).2, (spawnReputers (Reputer node) ∅).2.
  split; [|split].
  - unfold Spawn. by destruct (spawnWorkers _ _), (spawnReputers _ _).
  - rewrite spawnWorkers_spawnEach. apply spawnEach_sublist.
  - rewrite spawnReputers_spawnEach. apply spawnEach_sublist.
Qed.

(** X13. When no topic id is repeated within a role, [Spawn] starts a task
    for every configuration and writes no diagnostic. A worker and a
    reputer may share a topic id: the two roles are deduplicated apart. *)
Theorem Spawn_distinct_topics (S : Suite) (node : NodeConfig) :
  NoDup (WorkerTopicId <$> Worker node) ->
  NoDup (ReputerTopicId <$> Reputer node) ->
  Spawn S node =
    ([], (WorkerLaunched <$> Worker node) ++ (ReputerLaunched <$> Reputer node)).
Proof.
  intros Hw Hr. unfold Spawn.
  rewrite spawnWorkers_spawnEach, spawnReputers_spawnEach.
  rewrite !spawnEach_distinct; [done | done | | done |]; intros; apply lookup_empty.
Qed.

(** X14. Configurations added at the end of a role's list for topic ids
    that the list already has start no task: the tasks are those of the
    list alone, and each added configuration costs one diagnostic. *)
Theorem Spawn_ignores_repeats (S : Suite)
    (ws moreWs : list WorkerConfig) (rs moreRs : list ReputerConfig) :
  (forall w, w ∈ moreWs -> WorkerTopicId w ∈ WorkerTopicId <$> ws) ->
  (forall r, r ∈ moreRs -> ReputerTopicId r ∈ ReputerTopicId <$> rs) ->
  (Spawn S {| Worker := ws ++ moreWs; Reputer := rs ++ moreRs |}).2 =
    (Spawn S {| Worker := ws; Reputer := rs |}).2 /\
  length (Spawn S {| Worker := ws ++ moreWs; Reputer := rs ++ moreRs |}).1 =
    (length (Spawn S {| Worker := ws; Reputer := rs |}).1 +
     length moreWs + length moreRs)%nat.
Proof.
  intros Hw Hr. unfold Spawn. cbn [Worker Reputer].
  rewrite !spawnWorkers_spawnEach, !spawnReputers_spawnEach.
  rewrite !spawnEach_repeats by (intros; left; auto).
  destruct (spawnEach WorkerTopicId _ ws ∅) as [wl wt].
  destruct (spawnEach ReputerTopicId _ rs ∅) as [rl rt].
  cbn [fst snd]. split; [done|].
  rewrite !length_app, !length_replicate. lia.
Qed.

(** ** The further properties on the simulated chain *)

Lemma worker_runs_forever_witness :
  exists st,
    (runWorkerProcess (simSuite healthy) 6 worker7 (startAt 95)).1 =
    Ok (Running st).
Proof.
  apply (worker_runs_forever (simSuite healthy) worker7 (startAt 95)
           topic7 95 95);
    [intros c; reflexivity | intros t c; discriminate
    | reflexivity | reflexivity].
Defined.

Lemma worker_commits_are_fresh_witness :
  countEvents isWorkerCommit
    (trace (runWorkerProcess (simSuite healthy) 4 worker7 (startAt 95)).2) = 3%nat /\
  commitsAreFresh
    (trace (runWorkerProcess (simSuite healthy) 4 worker7 (startAt 95)).2).
Proof.
  split; [reflexivity|].
  apply (worker_commits_are_fresh (simSuite healthy) 4 worker7 (startAt 95)).
  exists None. reflexivity.
Defined.

Lemma reputer_started_in_window_never_panics_witness :
  match (runReputerProcess (simSuite healthy) 5 reputer7 (startAt 100)).1 with
  | Panic _ => False
  | Ok _ => True
  end.
Proof.
  apply (reputer_started_in_window_never_panics (simSuite healthy)
           ltac:(intros t c; discriminate) reputer7 (startAt 100)
           topic7 100 100 100 101
           ({| lower := 100; upper := 110 |} : AnticipatedWindow (simSuite healthy))
           101 eq_refl eq_refl eq_refl eq_refl eq_refl 5).
Defined.

Lemma runReputerProcess_exits_witness :
  match runReputerProcess (simSuite healthy) 1 reputer7 (startAt 95) with
  | (Ok (Running _), _) => True
  | (Ok Returned, w') =>
      exists pre e line,
        trace w' = pre ++ [e; EvLog LError line] /\ isFatalAnswer e = true
  | (Panic _, w') =>
      (exists pre e, trace w' = pre ++ [e] /\ isNilNonceAnswer e = true) \/
      countEvents isNonceQuery (trace w') = 0%nat
  end.
Proof.
  apply (runReputerProcess_exits (simSuite healthy) 1 reputer7 (startAt 95)
           eq_refl).
Defined.

Lemma Spawn_distinct_topics_witness :
  Spawn (simSuite healthy) tidyNode =
    ([], (WorkerLaunched <$> Worker tidyNode) ++
         (ReputerLaunched <$> Reputer tidyNode)).
Proof.
  apply (Spawn_distinct_topics (simSuite healthy) tidyNode).
  - exact (bool_decide_unpack (NoDup (WorkerTopicId <$> Worker tidyNode)) I).
  - exact (bool_decide_unpack (NoDup (ReputerTopicId <$> Reputer tidyNode)) I).
Defined.

Lemma Spawn_ignores_repeats_witness :
  (Spawn (simSuite healthy) crowdedNode).2 = (Spawn (simSuite healthy) tidyNode).2 /\
  length (Spawn (simSuite healthy) crowdedNode).1 = 2%nat.
Proof.
  apply (Spawn_ignores_repeats (simSuite healthy)
           (Worker tidyNode)
           [ {| WorkerTopicId := 7%N; WorkerLabel := "second" |} ]
           (Reputer tidyNode)
           [ {| ReputerTopicId := 7%N; ReputerLabel := "second" |} ]).
  - intros w Hw. apply list_elem_of_singleton in Hw. subst w. apply list_elem_of_here.
  - intros r Hr. apply list_elem_of_singleton in Hr. subst r. apply list_elem_of_here.
Defined.
